(** * Image generation orchestration: credit gate, provider dispatch, persistence

    A shallow embedding of [server/tools/utils/image_generation_core.py]
    (function [generate_image_with_provider] and the registry
    [IMAGE_PROVIDERS]) together with the credit admission gate it calls on
    [server/services/db_service.py].

    The orchestrator is an [async] Python function that calls four
    collaborators in a fixed order and raises on three conditions of its own.
    It is embedded in a state-and-exception monad: the state is the world of
    the collaborators (datastore, file system, remote backends) together with
    the chronological trace of the calls made so far. *)

From stdpp Require Import base strings gmap list pretty.

Local Open Scope string_scope.
Local Open Scope list_scope.
Local Open Scope Z_scope.

(** ** Python values the orchestrator manipulates *)

(** The exceptions that can leave [generate_image_with_provider]:
    [fastapi.HTTPException] and the builtin [ValueError] are raised by the
    function itself; [Exception] stands for any other class, raised by a
    collaborator and propagated untouched (the function has no [try]). *)
Inductive exn : Type :=
| HTTPException (status_code : Z) (detail : string)
| ValueError (msg : string)
| Exception (cls : string) (msg : string).

(** The five instances held by the dict [IMAGE_PROVIDERS]. *)
Inductive provider_id : Type :=
| JaazImageProvider
| OpenAIImageProvider
| ReplicateImageProvider
| VolcesProvider
| WavespeedProvider.

(** [IMAGE_PROVIDERS: dict[str, ImageProviderBase]], lines 26-32. *)
Definition IMAGE_PROVIDERS : gmap string provider_id :=
  list_to_map
    [ ("jaaz", JaazImageProvider);
      ("openai", OpenAIImageProvider);
      ("replicate", ReplicateImageProvider);
      ("volces", VolcesProvider);
      ("wavespeed", WavespeedProvider) ].

(** The [metadata] dict built on lines 74-80. *)
Record Metadata : Type := mkMetadata {
  md_prompt : string;
  md_model : string;
  md_provider : string;
  md_aspect_ratio : string;
  md_input_images : list string
}.

(** The keyword arguments of [provider_instance.generate], lines 83-89.
    [ga_input_images] has the Python type [list[str] | None]. *)
Record GenerateArgs : Type := mkGenerateArgs {
  ga_prompt : string;
  ga_model : string;
  ga_aspect_ratio : string;
  ga_input_images : option (list string);
  ga_metadata : Metadata
}.

(** The tuple [(mime_type, width, height, filename)] a provider returns. *)
Definition ProviderResult : Type := string * Z * Z * string.

(** One entry of the trace per observable action of the orchestrator. *)
Inductive Event : Type :=
| CreditCheck (user_id : Z)
| RegistryLookup (provider : string)
| ProcessInputImage (image_path : string)
| Print (line : string)
| Generate (instance : provider_id) (args : GenerateArgs)
| SaveImageToCanvas (session_id canvas_id filename mime_type : string)
                    (width height : Z).

(** Python truthiness of an [Optional[str]]: [None] and [""] are falsy. *)
Definition truthy_str (v : option string) : bool :=
  match v with
  | Some s => negb (String.eqb s "")
  | None => false
  end.

(** [input_images or []]. *)
Definition or_empty (v : option (list string)) : list string :=
  match v with
  | Some (x :: l) => x :: l
  | _ => []
  end.

(** ** Collaborators

    None of the four functions awaited by the orchestrator is defined in the
    files at hand: each is an interface of the embedding.  A collaborator
    reads and updates the world [W] and either returns or raises.  A
    falsy result of the preprocessor is what the test on line 68 looks at;
    an exception of the preprocessor is not caught by the orchestrator.
    [DEFAULT_PORT] is the integer imported from [common]. *)
Class Collaborators (W : Type) : Type := mkCollaborators {
  check_and_update_credits : Z → W → (exn + bool) * W;
  process_input_image : string → W → (exn + option string) * W;
  generate : provider_id → GenerateArgs → W → (exn + ProviderResult) * W;
  save_image_to_canvas :
    string → string → string → string → Z → Z → W → (exn + string) * W;
  DEFAULT_PORT : Z
}.

(** ** The monad *)

Record State (W : Type) : Type := mkState {
  world : W;
  trace : list Event
}.
Arguments mkState {W} _ _.
Arguments world {W} _.
Arguments trace {W} _.

Definition M (W A : Type) : Type := State W → (exn + A) * State W.

Definition ret {W A} (a : A) : M W A := λ st, (inr a, st).

Definition raise {W A} (e : exn) : M W A := λ st, (inl e, st).

Definition bind {W A B} (c : M W A) (k : A → M W B) : M W B :=
  λ st, match c st with
        | (inr a, st') => k a st'
        | (inl e, st') => (inl e, st')
        end.

(** Record an action that does not touch the world. *)
Definition emit {W} (ev : Event) : M W unit :=
  λ st, (inr tt, mkState (world st) (trace st ++ [ev])).

(** Await a collaborator: the call is recorded, then the world moves. *)
Definition call {W A} (ev : Event) (f : W → (exn + A) * W) : M W A :=
  λ st, match f (world st) with
        | (r, w') => (r, mkState w' (trace st ++ [ev]))
        end.

Declare Scope py_scope.
Delimit Scope py_scope with py.
Notation "'let*' x ':=' c 'in' k" := (bind c (λ x, k))
  (at level 10, x pattern, c at level 100, k at level 200) : py_scope.
Local Open Scope py_scope.

(** ** The orchestrator *)

Section Orchestrator.
Context {W : Type} `{C : Collaborators W}.

(** Lines 65-69: the [for] loop, appending each truthy result; there is no
    [try] around the awaited call, so its exception ends the loop and the
    request. *)
Fixpoint process_images (input_images : list string) (processed_input_images : list string)
  : M W (list string) :=
  match input_images with
  | [] => ret processed_input_images
  | image_path :: rest =>
      let* processed_image :=
        call (ProcessInputImage image_path) (process_input_image image_path) in
      if truthy_str processed_image
      then process_images rest (processed_input_images ++ [default "" processed_image])
      else process_images rest processed_input_images
  end.

(** Lines 63-71: [processed_input_images] stays [None] unless
    [input_images] is truthy (a non-empty list). *)
Definition preprocess (input_images : option (list string))
  : M W (option (list string)) :=
  match input_images with
  | Some (x :: l) =>
      let* processed_input_images := process_images (x :: l) [] in
      let* _ := emit (Print ("Using " +:+ pretty (length processed_input_images)
                             +:+ " input images for generation")) in
      ret (Some processed_input_images)
  | _ => ret None
  end.

(** The f-string returned on line 96. *)
Definition response (filename image_url : string) : string :=
  "image generated successfully ![image_id: " +:+ filename
    +:+ "](http://localhost:" +:+ pretty DEFAULT_PORT +:+ image_url +:+ ")".

(** Lines 58-96, run once the caller is admitted.  [IMAGE_PROVIDERS.get]
    answers [None] for a name that is no key; the instances held by the
    dict are plain objects, hence truthy, so [not provider_instance] holds
    exactly when the name is unknown. *)
Definition dispatch (canvas_id session_id provider model prompt aspect_ratio : string)
    (input_images : option (list string)) : M W string :=
  let* _ := emit (RegistryLookup provider) in
  match IMAGE_PROVIDERS !! provider with
  | None => raise (ValueError ("Unknown provider: " +:+ provider))
  | Some provider_instance =>
      let* processed_input_images := preprocess input_images in
      let metadata :=
        mkMetadata prompt model provider aspect_ratio (or_empty input_images) in
      let* (mime_type, width, height, filename) :=
        call (Generate provider_instance
                (mkGenerateArgs prompt model aspect_ratio processed_input_images metadata))
             (generate provider_instance
                (mkGenerateArgs prompt model aspect_ratio processed_input_images metadata)) in
      let* image_url :=
        call (SaveImageToCanvas session_id canvas_id filename mime_type width height)
             (save_image_to_canvas session_id canvas_id filename mime_type width height) in
      ret (response filename image_url)
  end.

(** Lines 35-96.  [user_id: Optional[int]]; [not user_id] holds for [None]
    and for [0]. *)
Definition generate_image_with_provider
    (canvas_id session_id provider model prompt aspect_ratio : string)
    (input_images : option (list string)) (user_id : option Z) : M W string :=
  match user_id with
  | Some uid =>
      if decide (uid = 0)
      then raise (HTTPException 401 "User authentication required for image generation.")
      else
        let* can_generate := call (CreditCheck uid) (check_and_update_credits uid) in
        if negb can_generate
        then raise (HTTPException 429 "Batas pembuatan gambar harian telah tercapai.")
        else dispatch canvas_id session_id provider model prompt aspect_ratio input_images
  | None => raise (HTTPException 401 "User authentication required for image generation.")
  end.

(** A fresh request: the given world, nothing done yet. *)
Definition start (w : W) : State W := mkState w [].

End Orchestrator.

(** ** The credit store *)

Module CreditStore.

(** Modelled from the spec: the method [check_and_update_credits] that the
    orchestrator awaits on [db_service]; the class [DatabaseService] in
    [db_service.py] defines no method of that name, so its body is taken
    from the contract: one atomic operation on the per-user counter that
    denies when the remaining credits are exhausted and otherwise admits
    and performs the decrement.  A user without a counter is denied, as a
    conditional update that matches no row changes nothing. *)
Definition check_and_update_credits (user_id : Z) (credits : gmap Z Z)
  : bool * gmap Z Z :=
  match credits !! user_id with
  | Some n =>
      if decide (0 < n)
      then (true, <[user_id := n - 1]> credits)
      else (false, credits)
  | None => (false, credits)
  end.

(** Concurrent admission attempts.  Every task has issued its call; the
    datastore serves them one at a time, in an order of its own choosing.
    [pending] holds the user ids of the calls not served yet, [answers]
    the replies given so far. *)
Record Config : Type := mkConfig {
  pending : list Z;
  ledger : gmap Z Z;
  answers : list (Z * bool)
}.

(** One step: any pending call is picked and served atomically. *)
Inductive step : Config → Config → Prop :=
| step_serve (before after : list Z) (user_id : Z) (credits : gmap Z Z)
             (replies : list (Z * bool)) :
    step (mkConfig (before ++ user_id :: after) credits replies)
         (mkConfig (before ++ after)
                   (check_and_update_credits user_id credits).2
                   (replies ++ [(user_id, (check_and_update_credits user_id credits).1)])).

(** Calls of [user_id] still waiting. *)
Definition attempts (user_id : Z) (calls : list Z) : nat :=
  length (filter (λ v, v = user_id) calls).

(** Replies given to [user_id], and those among them that admit. *)
Definition answered (user_id : Z) (replies : list (Z * bool)) : nat :=
  length (filter (λ a : Z * bool, a.1 = user_id) replies).

Definition admitted (user_id : Z) (replies : list (Z * bool)) : nat :=
  length (filter (λ a : Z * bool, a.1 = user_id ∧ a.2 = true) replies).

(** The schedule that serves the calls in the order of the list. *)
Fixpoint serve_in_order (calls : list Z) (credits : gmap Z Z) (replies : list (Z * bool))
  : Config :=
  match calls with
  | [] => mkConfig [] credits replies
  | user_id :: rest =>
      serve_in_order rest (check_and_update_credits user_id credits).2
        (replies ++ [(user_id, (check_and_update_credits user_id credits).1)])
  end.

(** The quantities a step preserves for a user [u] who started with [N]
    credits and [calls] pending: admissions granted plus admissions still
    possible, credits spent plus credits left, and calls answered plus
    calls waiting. *)
Definition balanced (u N : Z) (calls : list Z) (cfg : Config) : Prop :=
  ∃ c, ledger cfg !! u = Some c ∧ 0 ≤ c
    ∧ (admitted u (answers cfg) + Nat.min (Z.to_nat c) (attempts u (pending cfg))
       = Nat.min (Z.to_nat N) (attempts u calls))%nat
    ∧ Z.of_nat (admitted u (answers cfg)) + c = N
    ∧ (answered u (answers cfg) + attempts u (pending cfg) = attempts u calls)%nat.

End CreditStore.

(** ** The orchestrator on top of the credit store

    The world of a running server: the credit counters, and the state [X] of
    everything else.  The preprocessor, the providers and the canvas store
    work on [X]; only the gate reads and writes the counters. *)

Record DWorld (X : Type) : Type := mkDWorld {
  credits : gmap Z Z;
  ext : X
}.
Arguments mkDWorld {X} _ _.
Arguments credits {X} _.
Arguments ext {X} _.

Record Backends (X : Type) : Type := mkBackends {
  b_process_input_image : string → X → (exn + option string) * X;
  b_generate : provider_id → GenerateArgs → X → (exn + ProviderResult) * X;
  b_save_image_to_canvas :
    string → string → string → string → Z → Z → X → (exn + string) * X;
  b_port : Z
}.
Arguments b_process_input_image {X} _.
Arguments b_generate {X} _.
Arguments b_save_image_to_canvas {X} _.
Arguments b_port {X} _.

Definition on_ext {X A} (f : X → A * X) (w : DWorld X) : A * DWorld X :=
  match f (ext w) with
  | (r, x') => (r, mkDWorld (credits w) x')
  end.

Definition gate {X} (user_id : Z) (w : DWorld X) : (exn + bool) * DWorld X :=
  match CreditStore.check_and_update_credits user_id (credits w) with
  | (ok, credits') => (inr ok, mkDWorld credits' (ext w))
  end.

Definition deployed {X} (B : Backends X) : Collaborators (DWorld X) :=
  {| check_and_update_credits := gate;
     process_input_image p := on_ext (b_process_input_image B p);
     generate i a := on_ext (b_generate B i a);
     save_image_to_canvas s c f m wd h := on_ext (b_save_image_to_canvas B s c f m wd h);
     DEFAULT_PORT := b_port B |}.

(** ** Sample backends

    A preprocessor that fails on one path and raises on another, a provider
    that answers with a 512 x 512 PNG named [abc123], a canvas store that
    answers with the file path, and variants in which the provider or the
    canvas store raises. *)

Definition sample_process_input_image (image_path : string) (x : unit)
  : (exn + option string) * unit :=
  if String.eqb image_path "broken.png"
  then (inr None, x)
  else if String.eqb image_path "locked.png"
  then (inl (Exception "PermissionError" "Permission denied"), x)
  else (inr (Some ("data:image/png;base64," +:+ image_path)), x).

Definition sample_backends : Backends unit :=
  {| b_process_input_image := sample_process_input_image;
     b_generate _ _ x := (inr ("image/png", 512, 512, "abc123"), x);
     b_save_image_to_canvas _ _ filename _ _ _ x := (inr ("/api/file/" +:+ filename), x);
     b_port := 57988 |}.

Definition failing_provider : Backends unit :=
  {| b_process_input_image := sample_process_input_image;
     b_generate _ _ x := (inl (Exception "RuntimeError" "connection reset"), x);
     b_save_image_to_canvas _ _ filename _ _ _ x := (inr ("/api/file/" +:+ filename), x);
     b_port := 57988 |}.

Definition failing_persister : Backends unit :=
  {| b_process_input_image := sample_process_input_image;
     b_generate _ _ x := (inr ("image/png", 512, 512, "abc123"), x);
     b_save_image_to_canvas _ _ _ _ _ _ x :=
       (inl (Exception "RuntimeError" "connection reset"), x);
     b_port := 57988 |}.

(** A request as in the end-to-end scenario: provider, model, prompt, ratio. *)
Definition sample_request {W} `{Collaborators W}
    (provider : string) (input_images : option (list string)) (user_id : option Z)
  : M W string :=
  generate_image_with_provider "canvas-1" "session-1" provider "x" "a cat" "1:1"
    input_images user_id.

(** A ledger with one user, id 1, holding [n] credits. *)
Definition one_user (n : Z) : DWorld unit := mkDWorld {[ 1 := n ]} tt.

(** The sample request run against given backends, for user 1 holding
    [n] credits. *)
Definition sample_run (B : Backends unit) (provider : string)
    (input_images : option (list string)) (user_id : option Z) (n : Z)
  : (exn + string) * State (DWorld unit) :=
  sample_request (H := deployed B) provider input_images user_id (start (one_user n)).

(** What the caller observes of a run: the value returned or the exception. *)
Definition outcome {W A} (r : (exn + A) * State W) : exn + A := r.1.

(** The value the provider received as [input_images], read off the trace. *)
Fixpoint handed_to_provider (t : list Event) : option (option (list string)) :=
  match t with
  | [] => None
  | Generate _ args :: _ => Some (ga_input_images args)
  | _ :: t' => handed_to_provider t'
  end.

(** How often a provider was invoked, and how often the gate. *)
Definition is_generate (ev : Event) : bool :=
  match ev with Generate _ _ => true | _ => false end.

Definition is_credit_check (ev : Event) : bool :=
  match ev with CreditCheck _ => true | _ => false end.

Definition generate_calls (t : list Event) : nat :=
  length (filter (λ ev, is_generate ev) t).

Definition credit_checks (t : list Event) : nat :=
  length (filter (λ ev, is_credit_check ev) t).

(** The results of preprocessing the references one after the other, each
    call starting from the world the previous one left, up to the first call
    that raises, and the world after the last call made. *)
Fixpoint preprocess_results {W} `{Collaborators W} (input_images : list string) (w : W)
  : list (option string) :=
  match input_images with
  | [] => []
  | image_path :: rest =>
      match process_input_image image_path w with
      | (inr processed_image, w') => processed_image :: preprocess_results rest w'
      | (inl _, _) => []
      end
  end.

Fixpoint world_after_preprocessing {W} `{Collaborators W}
    (input_images : list string) (w : W) : W :=
  match input_images with
  | [] => w
  | image_path :: rest =>
      match process_input_image image_path w with
      | (inr _, w') => world_after_preprocessing rest w'
      | (inl _, w') => w'
      end
  end.

(** The exception of the first preprocessing call that raises, if one
    does, and the references for which the preprocessor gets called: all of
    them, or those up to and including the one on which it raises. *)
Fixpoint preprocessing_raises {W} `{Collaborators W} (input_images : list string) (w : W)
  : option exn :=
  match input_images with
  | [] => None
  | image_path :: rest =>
      match process_input_image image_path w with
      | (inr _, w') => preprocessing_raises rest w'
      | (inl e, _) => Some e
      end
  end.

Fixpoint attempted {W} `{Collaborators W} (input_images : list string) (w : W)
  : list string :=
  match input_images with
  | [] => []
  | image_path :: rest =>
      match process_input_image image_path w with
      | (inr _, w') => image_path :: attempted rest w'
      | (inl _, _) => [image_path]
      end
  end.

(** The references that passed preprocessing, in input order, and their
    number. *)
Definition passed (results : list (option string)) : list string :=
  omap (λ v, if truthy_str v then v else None) results.

Definition passed_count (results : list (option string)) : nat :=
  length (filter (λ v, truthy_str v) results).

(** What the provider is handed for a given request, the events of the
    preprocessing step, and the keyword arguments of the one [generate] call;
    [w] is the world in which preprocessing starts. *)
Definition outgoing {W} `{Collaborators W} (input_images : option (list string)) (w : W)
  : option (list string) :=
  match input_images with
  | Some (x :: l) => Some (passed (preprocess_results (x :: l) w))
  | _ => None
  end.

Definition preprocessing_events {W} `{Collaborators W}
    (input_images : option (list string)) (w : W) : list Event :=
  match input_images with
  | Some (x :: l) =>
      map ProcessInputImage (x :: l)
        ++ [Print ("Using " +:+ pretty (length (passed (preprocess_results (x :: l) w)))
                   +:+ " input images for generation")]
  | _ => []
  end.

Definition generate_args {W} `{Collaborators W}
    (provider model prompt aspect_ratio : string)
    (input_images : option (list string)) (w : W) : GenerateArgs :=
  mkGenerateArgs prompt model aspect_ratio (outgoing input_images w)
    (mkMetadata prompt model provider aspect_ratio (or_empty input_images)).

(** The base of every artifact link: host and configured port. *)
Definition base_url {W} `{Collaborators W} : string :=
  "http://localhost:" +:+ pretty DEFAULT_PORT.

(** [needle] occurs in [s]. *)
Definition contains (s needle : string) : Prop :=
  ∃ before after, s = before +:+ needle +:+ after.

(** ** Further observations on a trace *)

(** How often the canvas store was asked to save. *)
Definition is_save (ev : Event) : bool :=
  match ev with SaveImageToCanvas _ _ _ _ _ _ => true | _ => false end.

Definition save_calls (t : list Event) : nat :=
  length (filter (λ ev, is_save ev) t).

(** A stretch of a trace without credit check, provider call or save. *)
Definition quiet (t : list Event) : Prop :=
  credit_checks t = 0%nat ∧ generate_calls t = 0%nat ∧ save_calls t = 0%nat.

(** The references handed to the preprocessor, in the order of the calls. *)
Definition preprocessed_paths (t : list Event) : list string :=
  omap (λ ev, match ev with ProcessInputImage p => Some p | _ => None end) t.

(** Collaborators whose datastore cannot be reached: the gate raises. *)
Definition unreachable_datastore : Collaborators unit :=
  {| check_and_update_credits _ w := (inl (Exception "ConnectError" "timed out"), w);
     process_input_image := sample_process_input_image;
     generate _ _ w := (inr ("image/png", 512, 512, "abc123"), w);
     save_image_to_canvas _ _ filename _ _ _ w := (inr ("/api/file/" +:+ filename), w);
     DEFAULT_PORT := 57988 |}.

(** * The services around the orchestrator

    [db_service.py], [auth_service.py] and [auth_router.py] talk to a remote
    datastore, a JWT library and a password hasher.  They share one monad:
    a state, a chronological list of events, and exceptions of a type [X]. *)

Module Eff.

Record St (E W : Type) : Type := mkSt {
  env : W;
  events : list E
}.
Arguments mkSt {E W} _ _.
Arguments env {E W} _.
Arguments events {E W} _.

Definition t (X E W A : Type) : Type := St E W → (X + A) * St E W.

Definition ret {X E W A} (a : A) : t X E W A := λ st, (inr a, st).

Definition raise {X E W A} (e : X) : t X E W A := λ st, (inl e, st).

Definition bind {X E W A B} (c : t X E W A) (k : A → t X E W B) : t X E W B :=
  λ st, match c st with
        | (inr a, st') => k a st'
        | (inl e, st') => (inl e, st')
        end.

(** Record an event that leaves the state alone (a log line). *)
Definition emit {X E W} (ev : E) : t X E W unit :=
  λ st, (inr tt, mkSt (env st) (events st ++ [ev])).

(** Call a collaborator: the call is recorded, then the state moves. *)
Definition call {X E W A} (ev : E) (f : W → (X + A) * W) : t X E W A :=
  λ st, match f (env st) with
        | (r, w') => (r, mkSt w' (events st ++ [ev]))
        end.

(** [try: c except Exception as e: h e]. *)
Definition try_except {X E W A} (c : t X E W A) (h : X → t X E W A) : t X E W A :=
  λ st, match c st with
        | (inl e, st') => h e st'
        | (inr a, st') => (inr a, st')
        end.

(** A fresh run: no event yet. *)
Definition fresh {E W} (w : W) : St E W := mkSt w [].

End Eff.

Declare Scope eff_scope.
Delimit Scope eff_scope with eff.
Notation "'let+' x ':=' c 'in' k" := (Eff.bind c (λ x, k))
  (at level 10, x pattern, c at level 100, k at level 200) : eff_scope.
Local Open Scope eff_scope.

(** ** Python values that travel to and from the datastore *)

(** A Python [float]: a finite binary fraction [m * 2^e], an infinity or a
    NaN.  Only its truth value matters below. *)
Inductive float_val : Type :=
| FFinite (m e : Z)
| FInf (negative : bool)
| FNaN.

(** What [json.loads] produces and what a [jsonb] column holds.  A dict is
    kept as the list of its items, keys distinct, in insertion order. *)
#[warnings="-register-all"]
Inductive json : Type :=
| JNull
| JBool (b : bool)
| JInt (z : Z)
| JFloat (f : float_val)
| JStr (s : string)
| JList (l : list json)
| JDict (items : list (string * json)).

(** A row of a table, and a dict in general. *)
Abbreviation row := (list (string * json)).

(** Python truthiness. *)
Definition truthy_json (v : json) : bool :=
  match v with
  | JNull => false
  | JBool b => b
  | JInt z => negb (z =? 0)
  | JFloat (FFinite m _) => negb (m =? 0)
  | JFloat _ => true
  | JStr s => negb (String.eqb s "")
  | JList l => match l with [] => false | _ => true end
  | JDict items => match items with [] => false | _ => true end
  end.

(** [d.get(key)], as an option, and with Python's default [None]. *)
Fixpoint dict_get (key : string) (d : row) : option json :=
  match d with
  | [] => None
  | (k, v) :: d' => if String.eqb k key then Some v else dict_get key d'
  end.

Definition dict_get_or_none (key : string) (d : row) : json :=
  default JNull (dict_get key d).

(** [Optional[str]] as a column value. *)
Definition json_of_optional_str (v : option string) : json :=
  match v with Some s => JStr s | None => JNull end.

(** ** [db_service.py]

    Every method builds one request with the fluent interface of the
    Supabase client and calls [execute()] on it.  The request is kept as a
    value; the client is the collaborator that executes it. *)

Module Db.

(** What a request does to its table. *)
Inductive action : Type :=
| Select (columns : string)
| Insert (values : row)
| Update (values : row)
| Upsert (values : row) (on_conflict : string)
| Delete.

(** The calls chained after it, in the order they are written. *)
Inductive modifier : Type :=
| Eq (column : string) (value : json)
| Order (column : string) (desc : bool)
| MaybeSingle.

Record query : Type := mkQuery {
  q_table : string;
  q_action : action;
  q_modifiers : list modifier
}.

(** What a method does that can be observed from outside. *)
Inductive event : Type :=
| CreateClient (url key : string)
| Execute (q : query)
| Log (level line : string).

(** The client library, the JSON parser and [str()] on exceptions.
    [execute] answers with the list [response.data] of a request without
    [maybe_single()].  [execute_single] answers a request that ends in
    [maybe_single()]: with [None] when the client returns [None] in place of
    a response, and otherwise with the value of [response.data], a row or
    [None].  [json_loads] is [json.loads], which returns or raises, and
    [is_JSONDecodeError] tells whether what it raised is an instance of
    [json.JSONDecodeError]. *)
Class Client (W : Type) : Type := mkClient {
  create_client : string → string → W → (exn + unit) * W;
  execute : query → W → (exn + list row) * W;
  execute_single : query → W → (exn + option (option row)) * W;
  json_loads : string → exn + json;
  is_JSONDecodeError : exn → bool;
  exn_str : exn → string
}.

Abbreviation D W A := (Eff.t exn event W A).

Section Methods.
Context {W : Type} `{K : Client W}.

Definition run_query (q : query) : D W (list row) := Eff.call (Execute q) (execute q).

(** [response.data] where [response] may be [None]. *)
Definition data_of (response : option (option row)) : D W (option row) :=
  match response with
  | Some data => Eff.ret data
  | None => Eff.raise (Exception "AttributeError"
                         "'NoneType' object has no attribute 'data'")
  end.

Definition run_single (q : query) : D W (option row) :=
  let+ response := Eff.call (Execute q) (execute_single q) in
  data_of response.

(** [response.data if response.data else None]: an empty dict is falsy. *)
Definition data_or_none (data : option row) : option row :=
  match data with
  | Some (item :: items) => Some (item :: items)
  | _ => None
  end.

(** Lines 18-33, [__init__]; [url] and [key] are the two results of
    [os.environ.get]. *)
Definition init (url key : option string) : D W unit :=
  if negb (truthy_str url) || negb (truthy_str key)
  then Eff.raise (ValueError
         "SUPABASE_URL and SUPABASE_KEY must be set in the environment variables.")
  else
    Eff.try_except
      (let+ _ := Eff.call (CreateClient (default "" url) (default "" key))
                   (create_client (default "" url) (default "" key)) in
       Eff.emit (Log "INFO" "Supabase client initialized successfully."))
      (λ e,
         let+ _ := Eff.emit (Log "ERROR"
                      ("Failed to initialize Supabase client: " +:+ exn_str e)) in
         Eff.raise e).

(** The request of [create_user], lines 38-43. *)
Definition create_user_query (username email hashed_password role : string) : query :=
  mkQuery "users"
    (Insert [("username", JStr username); ("email", JStr email);
             ("hashed_password", JStr hashed_password); ("role", JStr role)])
    [].

(** Lines 36-50.  [response.data[0]['id']] raises [KeyError] on a row
    without the key; the [raise] of line 47 sits inside the [try]. *)
Definition create_user (username email hashed_password role : string) : D W json :=
  Eff.try_except
    (let+ data := run_query (create_user_query username email hashed_password role) in
     match data with
     | first :: _ =>
         match dict_get "id" first with
         | Some id => Eff.ret id
         | None => Eff.raise (Exception "KeyError" "'id'")
         end
     | [] => Eff.raise (Exception "Exception" "User creation failed, no data returned.")
     end)
    (λ e,
       let+ _ := Eff.emit (Log "ERROR"
                    ("An unexpected error occurred during user creation: " +:+ exn_str e)) in
       Eff.raise e).

(** Lines 52-62. *)
Definition get_user_by (column : string) (value : json) : D W (option row) :=
  let+ data := run_single (mkQuery "users" (Select "*") [Eq column value; MaybeSingle]) in
  Eff.ret (data_or_none data).

Definition get_user_by_id (user_id : Z) : D W (option row) :=
  get_user_by "id" (JInt user_id).

Definition get_user_by_username (username : string) : D W (option row) :=
  get_user_by "username" (JStr username).

Definition get_user_by_email (email : string) : D W (option row) :=
  get_user_by "email" (JStr email).

(** Lines 64-66: [response.data.get('providers_config', {}) if response.data
    else {}]. *)
Definition get_user_api_keys (user_id : Z) : D W json :=
  let+ data := run_single (mkQuery "user_api_keys" (Select "providers_config")
                             [Eq "user_id" (JInt user_id); MaybeSingle]) in
  Eff.ret (match data_or_none data with
           | Some r => default (JDict []) (dict_get "providers_config" r)
           | None => JDict []
           end).

(** Lines 68-72. *)
Definition update_user_api_keys (user_id : Z) (configs : json) : D W unit :=
  let+ _ := run_query (mkQuery "user_api_keys"
                         (Upsert [("user_id", JInt user_id); ("providers_config", configs)]
                                 "user_id") []) in
  Eff.ret tt.

(** Lines 75-80. *)
Definition create_canvas (id name : string) : D W unit :=
  let+ _ := run_query (mkQuery "canvases"
                         (Insert [("id", JStr id); ("name", JStr name)]) []) in
  Eff.ret tt.

Definition list_canvases : D W (list row) :=
  run_query (mkQuery "canvases" (Select "*") [Order "updated_at" true]).

(** The request of [list_sessions], lines 121-124: the filter on the
    canvas is added when [canvas_id] is truthy. *)
Definition list_sessions_query (canvas_id : option string) : query :=
  mkQuery "chat_sessions" (Select "id, title, model, provider, created_at, updated_at")
    ((if truthy_str canvas_id then [Eq "canvas_id" (JStr (default "" canvas_id))] else [])
       ++ [Order "updated_at" true]).

(** Lines 120-125. *)
Definition list_sessions (canvas_id : option string) : D W (list row) :=
  run_query (list_sessions_query canvas_id).

(** [x or {}]. *)
Definition or_empty_dict (v : json) : json :=
  if truthy_json v then v else JDict [].

(** Lines 82-94. *)
Definition get_canvas_data (id : string) : D W (option row) :=
  let+ data := run_single (mkQuery "canvases" (Select "data, name")
                             [Eq "id" (JStr id); MaybeSingle]) in
  match data_or_none data with
  | None => Eff.ret None
  | Some r =>
      let+ sessions := list_sessions (Some id) in
      Eff.ret (Some [("data", or_empty_dict (dict_get_or_none "data" r));
                     ("name", dict_get_or_none "name" r);
                     ("sessions", JList (map JDict sessions))])
  end.

(** Lines 97-101: the parsed document, or [{}] with a warning when
    [json.loads] raises [JSONDecodeError]; nothing else is caught. *)
Definition parse_canvas_data (id data : string) : D W json :=
  match json_loads data with
  | inr canvas_data_obj => Eff.ret canvas_data_obj
  | inl e =>
      if is_JSONDecodeError e
      then
        let+ _ := Eff.emit (Log "WARNING"
                     ("Invalid JSON in canvas data for canvas ID " +:+ id
                      +:+ ". Saving as empty object.")) in
        Eff.ret (JDict [])
      else Eff.raise e
  end.

(** Lines 96-107. *)
Definition save_canvas_data (id data : string) (thumbnail : option string) : D W unit :=
  let+ canvas_data_obj := parse_canvas_data id data in
  let+ _ := run_query (mkQuery "canvases"
                         (Update [("data", canvas_data_obj);
                                  ("thumbnail", json_of_optional_str thumbnail);
                                  ("updated_at", JStr "now()")])
                         [Eq "id" (JStr id)]) in
  Eff.ret tt.

(** Lines 109-113. *)
Definition rename_canvas (id name : string) : D W unit :=
  let+ _ := run_query (mkQuery "canvases"
                         (Update [("name", JStr name); ("updated_at", JStr "now()")])
                         [Eq "id" (JStr id)]) in
  Eff.ret tt.

Definition delete_canvas (id : string) : D W unit :=
  let+ _ := run_query (mkQuery "canvases" Delete [Eq "id" (JStr id)]) in
  Eff.ret tt.

(** Line 118: the list comprehension over [response.data]. *)
Definition messages_of (data : list row) : list json :=
  omap (λ r, match dict_get "message" r with
             | Some message => if truthy_json message then Some message else None
             | None => None
             end) data.

(** Lines 116-118. *)
Definition get_chat_history (session_id : string) : D W (list json) :=
  let+ data := run_query (mkQuery "chat_messages" (Select "message")
                            [Eq "session_id" (JStr session_id); Order "id" false]) in
  Eff.ret (messages_of data).

(** Lines 127-134. *)
Definition create_chat_session (session_id model provider canvas_id title : string)
  : D W unit :=
  let+ _ := run_query (mkQuery "chat_sessions"
                         (Insert [("id", JStr session_id); ("model", JStr model);
                                  ("provider", JStr provider);
                                  ("canvas_id", JStr canvas_id); ("title", JStr title)])
                         []) in
  Eff.ret tt.

(** Lines 137-141: the parsed message, or the text wrapped in a
    [content] object with a warning when [json.loads] raises
    [JSONDecodeError]; nothing else is caught. *)
Definition parse_message (session_id message : string) : D W json :=
  match json_loads message with
  | inr message_obj => Eff.ret message_obj
  | inl e =>
      if is_JSONDecodeError e
      then
        let+ _ := Eff.emit (Log "WARNING"
                     ("Message for session " +:+ session_id
                      +:+ " is not a valid JSON string. Wrapping it in a content object.")) in
        Eff.ret (JDict [("content", JStr message)])
      else Eff.raise e
  end.

(** The row of [create_message], lines 143-147. *)
Definition message_row (session_id role : string) (message_obj : json) : row :=
  [("session_id", JStr session_id); ("role", JStr role); ("message", message_obj)].

(** Lines 136-147. *)
Definition create_message (session_id role message : string) : D W unit :=
  let+ message_obj := parse_message session_id message in
  let+ _ := run_query (mkQuery "chat_messages"
                         (Insert (message_row session_id role message_obj)) []) in
  Eff.ret tt.

(** [json.loads(text)] outside any [try]. *)
Definition loads_or_raise (text : string) : D W json :=
  match json_loads text with
  | inr v => Eff.ret v
  | inl e => Eff.raise e
  end.

(** Lines 150-157: the values of the dict display are evaluated in the
    order they are written. *)
Definition create_comfy_workflow (name api_json description inputs outputs : string)
  : D W unit :=
  let+ api := loads_or_raise api_json in
  let+ ins := loads_or_raise inputs in
  let+ outs := loads_or_raise outputs in
  let+ _ := run_query (mkQuery "comfy_workflows"
                         (Insert [("name", JStr name); ("api_json", api);
                                  ("description", JStr description);
                                  ("inputs", ins); ("outputs", outs)]) []) in
  Eff.ret tt.

(** Lines 159-168. *)
Definition list_comfy_workflows : D W (list row) :=
  run_query (mkQuery "comfy_workflows" (Select "*") [Order "updated_at" true]).

Definition get_comfy_workflow (workflow_id : Z) : D W json :=
  let+ data := run_single (mkQuery "comfy_workflows" (Select "*")
                             [Eq "id" (JInt workflow_id); MaybeSingle]) in
  Eff.ret (match data_or_none data with
           | Some r => dict_get_or_none "api_json" r
           | None => JNull
           end).

Definition delete_comfy_workflow (workflow_id : Z) : D W unit :=
  let+ _ := run_query (mkQuery "comfy_workflows" Delete [Eq "id" (JInt workflow_id)]) in
  Eff.ret tt.

End Methods.

(** The requests executed during a run, and the lines logged. *)
Definition executed (evs : list event) : list query :=
  omap (λ ev, match ev with Execute q => Some q | _ => None end) evs.

Definition logged (evs : list event) : list (string * string) :=
  omap (λ ev, match ev with Log level line => Some (level, line) | _ => None end) evs.

(** The rows a run inserts into [table]. *)
Definition inserted_into (table : string) (evs : list event) : list row :=
  omap (λ q, match q_action q with
             | Insert values => if String.eqb (q_table q) table then Some values else None
             | _ => None
             end) (executed evs).

End Db.

(** ** [auth_service.py] *)

Module AuthService.

(** An aware UTC [datetime] is the number of microseconds since the epoch,
    a [timedelta] a number of microseconds.  The bounds are those of
    [datetime.min], [datetime.max] and [timedelta.max.days]. *)
Definition datetime_min : Z := -62135596800000000.
Definition datetime_max : Z := 253402300799999999.
Definition max_delta_days : Z := 999999999.
Definition microseconds_per_day : Z := 86400000000.

(** A value of the dict handed to [jwt.encode]. *)
Inductive claim : Type :=
| CJson (v : json)
| CDatetime (microseconds : Z).

Abbreviation claims := (list (string * claim)).

(** [d[key] = v] on a dict kept as the list of its items. *)
Fixpoint dict_set {V : Type} (key : string) (v : V) (d : list (string * V))
  : list (string * V) :=
  match d with
  | [] => [(key, v)]
  | (k, x) :: d' =>
      if String.eqb k key then (k, v) :: d' else (k, x) :: dict_set key v d'
  end.

Fixpoint dict_lookup {V : Type} (key : string) (d : list (string * V)) : option V :=
  match d with
  | [] => None
  | (k, x) :: d' => if String.eqb k key then Some x else dict_lookup key d'
  end.

(** The module constants and the two libraries behind the functions:
    [SECRET_KEY] and [ACCESS_TOKEN_EXPIRE_MINUTES] come from the
    environment; [jwt_encode] and [jwt_decode] are [jose.jwt]; [is_JWTError]
    tells whether an exception is an instance of [JWTError]. *)
Class Jose : Type := mkJose {
  SECRET_KEY : string;
  ACCESS_TOKEN_EXPIRE_MINUTES : Z;
  jwt_encode : claims → string → string → exn + string;
  jwt_decode : string → string → list string → exn + row;
  is_JWTError : exn → bool
}.

Definition ALGORITHM : string := "HS256".

(** The value the module gives [ACCESS_TOKEN_EXPIRE_MINUTES] when the
    environment does not set it: [60 * 24 * 7]. *)
Definition default_expire_minutes : Z := 60 * 24 * 7.

(** [timedelta(minutes=n)]. *)
Definition timedelta_minutes (n : Z) : exn + Z :=
  if Z.abs (n * 60000000 `div` microseconds_per_day) <=? max_delta_days
  then inr (n * 60000000)
  else inl (Exception "OverflowError"
              ("days=" +:+ pretty (n * 60000000 `div` microseconds_per_day)
               +:+ "; must have magnitude <= 999999999")).

(** [datetime + timedelta]. *)
Definition datetime_add (t delta : Z) : exn + Z :=
  if (datetime_min <=? t + delta) && (t + delta <=? datetime_max)
  then inr (t + delta)
  else inl (Exception "OverflowError" "date value out of range").

Section Functions.
Context `{J : Jose}.

(** Lines 28-31: the expiry; [if expires_delta:] is false for [None] and
    for a zero [timedelta]. *)
Definition expiry (now : Z) (expires_delta : option Z) : exn + Z :=
  match expires_delta with
  | Some delta =>
      if delta =? 0
      then match timedelta_minutes ACCESS_TOKEN_EXPIRE_MINUTES with
           | inr d => datetime_add now d
           | inl e => inl e
           end
      else datetime_add now delta
  | None =>
      match timedelta_minutes ACCESS_TOKEN_EXPIRE_MINUTES with
      | inr d => datetime_add now d
      | inl e => inl e
      end
  end.

(** Lines 26-34; [now] is what [datetime.now(timezone.utc)] returns. *)
Definition create_access_token (now : Z) (data : claims) (expires_delta : option Z)
  : exn + string :=
  match expiry now expires_delta with
  | inr expire => jwt_encode (dict_set "exp" (CDatetime expire) data) SECRET_KEY ALGORITHM
  | inl e => inl e
  end.

(** The lifetime [create_access_token] gives a token: the [timedelta] of
    the caller when it is not zero, the configured number of minutes
    otherwise. *)
Definition lifetime (expires_delta : option Z) : Z :=
  match expires_delta with
  | Some delta => if delta =? 0 then ACCESS_TOKEN_EXPIRE_MINUTES * 60000000 else delta
  | None => ACCESS_TOKEN_EXPIRE_MINUTES * 60000000
  end.

(** Lines 36-41. *)
Definition decode_access_token (token : string) : exn + option row :=
  match jwt_decode token SECRET_KEY [ALGORITHM] with
  | inr payload => inr (Some payload)
  | inl e => if is_JWTError e then inr None else inl e
  end.

End Functions.

End AuthService.

(** ** [auth_router.py] *)

Module AuthRouter.

(** *** The password validators *)

(** A Python [str] is the list of its code points. *)
Abbreviation pystr := (list N).

(** The number of bytes of one code point in UTF-8; a surrogate cannot be
    encoded. *)
Definition utf8_width (c : N) : option nat :=
  if (c <? 128)%N then Some 1%nat
  else if (c <? 2048)%N then Some 2%nat
  else if (55296 <=? c)%N && (c <=? 57343)%N then None
  else if (c <? 65536)%N then Some 3%nat
  else Some 4%nat.

(** [len(v.encode('utf-8'))], or [None] where [encode] raises
    [UnicodeEncodeError]. *)
Fixpoint utf8_length (v : pystr) : option nat :=
  match v with
  | [] => Some 0%nat
  | c :: v' =>
      match utf8_width c, utf8_length v' with
      | Some n, Some m => Some (n + m)%nat
      | _, _ => None
      end
  end.

(** Lines 19-24 and 35-40: [validate_password_length], the same body in
    [UserCreate] and in [PasswordChange]. *)
Definition validate_password_length (v : pystr) : exn + pystr :=
  match utf8_length v with
  | Some n =>
      if (72 <? n)%nat
      then inl (ValueError "Password must not exceed 72 bytes.")
      else inr v
  | None => inl (Exception "UnicodeEncodeError" "surrogates not allowed")
  end.

(** Lines 17 and 33: [Field(..., min_length=8)] is checked on the number of
    characters, and the validator runs on a value that passed it. *)
Definition password_field (v : pystr) : exn + pystr :=
  if (length v <? 8)%nat
  then inl (Exception "ValidationError" "string_too_short")
  else validate_password_length v.

(** *** The endpoints *)

(** What an endpoint raises: [fastapi.HTTPException] with its headers, or
    any other exception. *)
Inductive http_exn : Type :=
| HTTPError (status_code : Z) (detail : string) (headers : option (list (string * string)))
| Raised (e : exn).

(** The calls an endpoint awaits or makes; [Database] is an event of a
    method of [db_service.py]. *)
Inductive event : Type :=
| Database (ev : Db.event)
| UpdateUserPassword (user_id : json) (hashed_password : string)
| UpdateUserProfile (user_id : json) (update_data : row)
| VerifyPassword (plain_password : string) (hashed_password : json)
| GetPasswordHash (password : string)
| Now.

(** The two methods the endpoints await on [db_service] that
    [db_service.py] does not define (each may return or raise), the password
    hasher, the clock, the conversions [int()] and [str()], the construction
    of the pydantic model [User] from its keyword arguments, and the text of
    the interpreter's [TypeError] for [await] on a value of the named type,
    which is no awaitable. *)
Class Backend (W : Type) : Type := mkBackend {
  update_user_password : json → string → W → (exn + unit) * W;
  update_user_profile : json → row → W → (exn + option row) * W;
  verify_password : string → json → W → (exn + bool) * W;
  get_password_hash : string → W → (exn + string) * W;
  now : W → (exn + Z) * W;
  py_int : json → exn + Z;
  py_str : json → string;
  User : row → exn + row;
  not_awaitable : string → string
}.

Abbreviation R W A := (Eff.t http_exn event W A).

(** A call to a collaborator, awaited or not: its exception is raised as it
    is. *)
Definition perform {W A} (ev : event) (f : W → (exn + A) * W) : R W A :=
  Eff.call ev (λ w, match f w with
                    | (inl e, w') => (inl (Raised e), w')
                    | (inr a, w') => (inr a, w')
                    end).

(** A pure computation that may raise. *)
Definition lift {W A} (r : exn + A) : R W A :=
  match r with
  | inl e => Eff.raise (Raised e)
  | inr a => Eff.ret a
  end.

(** [d[key]]. *)
Definition subscript {W} (d : row) (key : string) : R W json :=
  match dict_get key d with
  | Some v => Eff.ret v
  | None => Eff.raise (Raised (Exception "KeyError" ("'" +:+ key +:+ "'")))
  end.

(** A method of [db_service.py], called as the plain function it is: its
    events are those of the endpoint, its exception is raised as it is. *)
Definition database {W A} (c : Db.D W A) : R W A :=
  λ st, match c (Eff.fresh (Eff.env st)) with
        | (r, st') =>
            (match r with inl e => inl (Raised e) | inr a => inr a end,
             Eff.mkSt (Eff.env st') (Eff.events st ++ map Database (Eff.events st')))
        end.

(** [await value] for a value that is no awaitable: the methods of
    [db_service.py] are plain [def]s, so what they return is a dict, [None]
    or a column value, and awaiting it raises [TypeError]. *)
Definition await_plain {W A} `{Backend W} (type_name : string) : R W A :=
  Eff.raise (Raised (Exception "TypeError" (not_awaitable type_name))).

(** [type(v).__name__]. *)
Definition type_name_of_row (v : option row) : string :=
  match v with
  | Some _ => "dict"
  | None => "NoneType"
  end.

Definition type_name_of_json (v : json) : string :=
  match v with
  | JNull => "NoneType"
  | JBool _ => "bool"
  | JInt _ => "int"
  | JFloat _ => "float"
  | JStr _ => "str"
  | JList _ => "list"
  | JDict _ => "dict"
  end.

(** Truthiness of an [Optional[Dict]]. *)
Definition truthy_row (u : option row) : bool :=
  match u with
  | Some (_ :: _) => true
  | _ => false
  end.

(** Lines 59-63. *)
Definition credentials_exception : http_exn :=
  HTTPError 401 "Could not validate credentials" (Some [("WWW-Authenticate", "Bearer")]).

(** Lines 98-102. *)
Definition incorrect_login : http_exn :=
  HTTPError 401 "Incorrect username or password" (Some [("WWW-Authenticate", "Bearer")]).

Section Endpoints.
Context {W : Type} `{K : Db.Client W} `{B : Backend W} `{J : AuthService.Jose}.

(** Lines 58-74.  On line 71 the method is called and what it returned is
    awaited. *)
Definition get_current_user (token : string) : R W row :=
  let+ payload := lift (AuthService.decode_access_token token) in
  match payload with
  | None => Eff.raise credentials_exception
  | Some claims =>
      match dict_get_or_none "sub" claims with
      | JNull => Eff.raise credentials_exception
      | user_id =>
          let+ n := lift (py_int user_id) in
          let+ returned := database (Db.get_user_by_id n) in
          let+ user := await_plain (type_name_of_row returned) in
          match user with
          | None => Eff.raise credentials_exception
          | Some u => Eff.ret u
          end
      end
  end.

(** The keyword arguments of [User(...)] on line 91. *)
Definition registered_user (user_id : json) (username email : string) : row :=
  [("id", user_id); ("username", JStr username); ("email", JStr email);
   ("role", JStr "user"); ("image_url", JNull); ("credits", JInt 10)].

(** Lines 76-91; the request body has passed the validation of
    [UserCreate].  On lines 78, 82 and 88 a method of [db_service.py] is
    called and what it returned is awaited. *)
Definition register_user (username email password : string) : R W row :=
  let+ returned := database (Db.get_user_by_username username) in
  let+ db_user_by_username := await_plain (type_name_of_row returned) in
  if truthy_row db_user_by_username
  then Eff.raise (HTTPError 400 "Username already registered" None)
  else
    let+ returned := database (Db.get_user_by_email email) in
    let+ db_user_by_email := await_plain (type_name_of_row returned) in
    if truthy_row db_user_by_email
    then Eff.raise (HTTPError 400 "Email already registered" None)
    else
      let+ hashed_password := perform (GetPasswordHash password) (get_password_hash password) in
      let+ returned := database (Db.create_user username email hashed_password "user") in
      let+ user_id := await_plain (type_name_of_json returned) in
      lift (User (registered_user user_id username email)).

(** The keyword arguments of [User(...)] on line 104, evaluated from left
    to right. *)
Definition user_info (user : row) : R W row :=
  let+ id := subscript user "id" in
  let+ username := subscript user "username" in
  let+ email := subscript user "email" in
  let+ role := subscript user "role" in
  Eff.ret [("id", id); ("username", username); ("email", email); ("role", role);
           ("image_url", dict_get_or_none "image_url" user);
           ("credits", default (JInt 0) (dict_get "credits" user))].

(** Lines 93-105.  On line 96 the method is called and what it returned
    is awaited. *)
Definition login_for_access_token (username password : string) : R W row :=
  let+ returned := database (Db.get_user_by_username username) in
  let+ user := await_plain (type_name_of_row returned) in
  match user with
  | Some (item :: items) =>
      let+ hashed_password := subscript (item :: items) "hashed_password" in
      let+ verified :=
        perform (VerifyPassword password hashed_password)
              (verify_password password hashed_password) in
      if negb verified
      then Eff.raise incorrect_login
      else
        let+ id := subscript (item :: items) "id" in
        let+ t := perform Now now in
        let+ access_token :=
          lift (AuthService.create_access_token t
                  [("sub", AuthService.CJson (JStr (py_str id)))] None) in
        let+ fields := user_info (item :: items) in
        let+ user_model := lift (User fields) in
        Eff.ret [("access_token", JStr access_token); ("token_type", JStr "bearer");
                 ("user_info", JDict user_model)]
  | _ => Eff.raise incorrect_login
  end.

(** Lines 132-140. *)
Definition change_password (current_password new_password : string) (current_user : row)
  : R W row :=
  let+ hashed_password := subscript current_user "hashed_password" in
  let+ verified :=
    perform (VerifyPassword current_password hashed_password)
          (verify_password current_password hashed_password) in
  if negb verified
  then Eff.raise (HTTPError 400 "Incorrect current password" None)
  else
    let+ new_hashed_password :=
      perform (GetPasswordHash new_password) (get_password_hash new_password) in
    let+ id := subscript current_user "id" in
    let+ _ := perform (UpdateUserPassword id new_hashed_password)
                    (update_user_password id new_hashed_password) in
    Eff.ret [("message", JStr "Password updated successfully")].

End Endpoints.

(** The events that write to the datastore. *)
Definition is_write (ev : event) : bool :=
  match ev with
  | UpdateUserPassword _ _ | UpdateUserProfile _ _ => true
  | Database (Db.Execute q) =>
      match Db.q_action q with
      | Db.Select _ => false
      | _ => true
      end
  | _ => false
  end.

Definition writes (evs : list event) : list event := filter (λ ev, is_write ev) evs.

End AuthRouter.

(** ** Sample collaborators of the services *)

(** A datastore with one chat of three rows, one user and one canvas, whose
    client returns [None] for a single row that is not there, and a parser
    that knows three texts and gives up on one. *)
Definition sample_client : Db.Client unit :=
  {| Db.create_client _ _ w := (inr tt, w);
     Db.execute q w :=
       if String.eqb (Db.q_table q) "chat_messages"
       then (inr [[("message", JDict [("content", JStr "hi")])];
                  [("message", JNull)];
                  [("role", JStr "user")]], w)
       else if String.eqb (Db.q_table q) "users"
       then (inr [[("id", JInt 8); ("username", JStr "bob")]], w)
       else (inr [], w);
     Db.execute_single q w :=
       match Db.q_modifiers q with
       | Db.Eq _ (JStr "c1") :: _ =>
           (inr (Some (Some [("data", JNull); ("name", JStr "Sketch")])), w)
       | Db.Eq _ (JStr "alice") :: _ | Db.Eq _ (JInt 7) :: _ =>
           (inr (Some (Some [("id", JInt 7); ("username", JStr "alice")])), w)
       | _ => (inr None, w)
       end;
     Db.json_loads text :=
       if String.eqb text "null" then inr JNull
       else if String.eqb text "{}" then inr (JDict [])
       else if String.eqb text "[1]" then inr (JList [JInt 1])
       else if String.eqb text "[[[[" then
         inl (Exception "RecursionError" "maximum recursion depth exceeded")
       else inl (Exception "JSONDecodeError" "Expecting value");
     Db.is_JSONDecodeError e :=
       match e with
       | Exception cls _ => String.eqb cls "JSONDecodeError"
       | _ => false
       end;
     Db.exn_str e :=
       match e with
       | HTTPException _ detail => detail
       | ValueError msg => msg
       | Exception _ msg => msg
       end |}.

(** A JWT library that writes the subject after a fixed prefix. *)
Definition sample_jose : AuthService.Jose :=
  {| AuthService.SECRET_KEY := "a-secure-default-secret-for-development-only";
     AuthService.ACCESS_TOKEN_EXPIRE_MINUTES := AuthService.default_expire_minutes;
     AuthService.jwt_encode payload _ _ :=
       match AuthService.dict_lookup "sub" payload with
       | Some (AuthService.CJson (JStr sub)) => inr ("jwt." +:+ sub)
       | _ => inl (Exception "JWTError" "no subject")
       end;
     AuthService.jwt_decode token _ _ :=
       if String.prefix "jwt." token
       then inr [("sub", JStr (String.substring 4 (String.length token - 4) token))]
       else inl (Exception "JWTError" "Not enough segments");
     AuthService.is_JWTError e :=
       match e with
       | Exception cls _ => String.eqb cls "JWTError"
       | _ => false
       end |}.

(** The one user of the sample backend. *)
Definition alice : row :=
  [("id", JInt 7); ("username", JStr "alice"); ("email", JStr "alice@example.org");
   ("role", JStr "user"); ("hashed_password", JStr "h(correct horse)")].

Definition sample_backend : AuthRouter.Backend unit :=
  {| AuthRouter.update_user_password _ _ w := (inr tt, w);
     AuthRouter.update_user_profile _ _ w := (inr None, w);
     AuthRouter.verify_password plain hashed w :=
       (inr (match hashed with
             | JStr h => String.eqb h ("h(" +:+ plain +:+ ")")
             | _ => false
             end), w);
     AuthRouter.get_password_hash plain w := (inr ("h(" +:+ plain +:+ ")"), w);
     AuthRouter.now w := (inr 1700000000000000, w);
     AuthRouter.py_int v :=
       match v with
       | JInt n => inr n
       | JStr "7" => inr 7
       | JStr "9" => inr 9
       | _ => inl (ValueError "invalid literal for int() with base 10")
       end;
     AuthRouter.py_str v :=
       match v with
       | JInt n => pretty n
       | JStr text => text
       | _ => ""
       end;
     AuthRouter.User fields := inr fields;
     AuthRouter.not_awaitable type_name :=
       "object " +:+ type_name +:+ " can't be used in 'await' expression" |}.

(** * Properties *)

(** ** The three failures raised by the orchestrator itself *)

Section Guards.
Context {W : Type} `{C : Collaborators W}.

Implicit Types (canvas_id session_id provider model prompt aspect_ratio : string).
Implicit Types (input_images : option (list string)) (st : State W) (w : W).

(** Past the authentication guard the function awaits the gate and then
    either raises 429 or goes on to the registry. *)
Lemma run_authenticated canvas_id session_id provider model prompt aspect_ratio
    input_images uid st :
  uid ≠ 0 →
  generate_image_with_provider canvas_id session_id provider model prompt aspect_ratio
    input_images (Some uid) st
  = match check_and_update_credits uid (world st) with
    | (inl e, w') => (inl e, mkState w' (trace st ++ [CreditCheck uid]))
    | (inr false, w') =>
        (inl (HTTPException 429 "Batas pembuatan gambar harian telah tercapai."),
         mkState w' (trace st ++ [CreditCheck uid]))
    | (inr true, w') =>
        dispatch canvas_id session_id provider model prompt aspect_ratio input_images
          (mkState w' (trace st ++ [CreditCheck uid]))
    end.
Proof.
  intros Huid. unfold generate_image_with_provider.
  destruct (decide (uid = 0)) as [->|_]; [done|].
  unfold bind, call.
  destruct (check_and_update_credits uid (world st)) as [[e|[|]] w']; reflexivity.
Qed.

(** C7: a call without an acting user (a null [user_id]) raises
    [HTTPException] 401 at once and leaves the state as it was: the world,
    with the credit store in it, is untouched, and the trace gains no
    event, so the gate is not asked, no provider is looked up or invoked
    and nothing is saved. *)
Theorem null_user_rejected_without_effect canvas_id session_id provider model prompt
    aspect_ratio input_images st :
  generate_image_with_provider canvas_id session_id provider model prompt aspect_ratio
    input_images None st
  = (inl (HTTPException 401 "User authentication required for image generation."), st).
Proof. reflexivity. Qed.

(** C10: the guard tests truthiness, so the integer 0 is rejected exactly
    like a null id: for every falsy [user_id] the call raises
    [HTTPException] 401, the state (world and trace) stays as it was, and
    the result is the one obtained for [None]. *)
Theorem falsy_user_rejected_like_null canvas_id session_id provider model prompt
    aspect_ratio input_images user_id st :
  user_id = None ∨ user_id = Some 0 →
  generate_image_with_provider canvas_id session_id provider model prompt aspect_ratio
    input_images user_id st
  = (inl (HTTPException 401 "User authentication required for image generation."), st)
  ∧ generate_image_with_provider canvas_id session_id provider model prompt aspect_ratio
      input_images user_id st
    = generate_image_with_provider canvas_id session_id provider model prompt
        aspect_ratio input_images None st.
Proof. intros [->| ->]; split; reflexivity. Qed.

(** C1: when the gate answers false, the call raises [HTTPException] 429,
    which differs from the 401 of the authentication guard and from the
    [ValueError] of the registry guard, and the only action taken is the
    credit check itself: no registry lookup, no preprocessing, no
    [generate], no save. *)
Theorem denied_raises_429_before_any_work canvas_id session_id provider model prompt
    aspect_ratio input_images uid w w' :
  uid ≠ 0 →
  check_and_update_credits uid w = (inr false, w') →
  ∃ e,
    generate_image_with_provider canvas_id session_id provider model prompt aspect_ratio
      input_images (Some uid) (start w)
    = (inl e, mkState w' [CreditCheck uid])
    ∧ e = HTTPException 429 "Batas pembuatan gambar harian telah tercapai."
    ∧ e ≠ HTTPException 401 "User authentication required for image generation."
    ∧ (∀ msg, e ≠ ValueError msg).
Proof.
  intros Huid Hgate. eexists. split; [|split; [reflexivity|split; [done|done]]].
  rewrite run_authenticated by done. simpl. rewrite Hgate. reflexivity.
Qed.

(** The names the registry does not know. *)
Lemma registry_miss provider :
  IMAGE_PROVIDERS !! provider = None
  ↔ provider ∉ ["jaaz"; "openai"; "replicate"; "volces"; "wavespeed"].
Proof. unfold IMAGE_PROVIDERS. by rewrite <- not_elem_of_list_to_map. Qed.

(** C3: for a provider name that is not a key of the registry, an admitted
    call raises [ValueError] with the message "Unknown provider: <name>".
    The failure is the explicit guard on the lookup result, reached right
    after the credit check: it is no exception of a collaborator, it comes
    before any use of the missing instance, and no [generate] is attempted. *)
Theorem unknown_provider_raises_value_error canvas_id session_id provider model prompt
    aspect_ratio input_images uid w w' :
  uid ≠ 0 →
  check_and_update_credits uid w = (inr true, w') →
  IMAGE_PROVIDERS !! provider = None →
  ∃ e,
    generate_image_with_provider canvas_id session_id provider model prompt aspect_ratio
      input_images (Some uid) (start w)
    = (inl e, mkState w' [CreditCheck uid; RegistryLookup provider])
    ∧ e = ValueError ("Unknown provider: " +:+ provider)
    ∧ (∀ cls msg, e ≠ Exception cls msg)
    ∧ generate_calls [CreditCheck uid; RegistryLookup provider] = 0%nat.
Proof.
  intros Huid Hgate Hreg. eexists. split; [|split; [reflexivity|split; done]].
  rewrite run_authenticated by done. simpl. rewrite Hgate.
  unfold dispatch, bind, emit. simpl. by rewrite Hreg.
Qed.

End Guards.

(** ** Counting events *)

Lemma generate_calls_app (t1 t2 : list Event) :
  generate_calls (t1 ++ t2) = (generate_calls t1 + generate_calls t2)%nat.
Proof. unfold generate_calls. by rewrite filter_app, length_app. Qed.

Lemma credit_checks_app (t1 t2 : list Event) :
  credit_checks (t1 ++ t2) = (credit_checks t1 + credit_checks t2)%nat.
Proof. unfold credit_checks. by rewrite filter_app, length_app. Qed.

Lemma generate_calls_preprocessing (input_images : list string) :
  generate_calls (map ProcessInputImage input_images) = 0%nat.
Proof. induction input_images as [|p l IH]; [done|exact IH]. Qed.

Lemma credit_checks_preprocessing (input_images : list string) :
  credit_checks (map ProcessInputImage input_images) = 0%nat.
Proof. induction input_images as [|p l IH]; [done|exact IH]. Qed.

Lemma handed_to_provider_skip (t1 t2 : list Event) :
  generate_calls t1 = 0%nat →
  handed_to_provider (t1 ++ t2) = handed_to_provider t2.
Proof.
  induction t1 as [|ev t1 IH]; [done|].
  intros H. destruct ev; try (apply IH; exact H).
  discriminate H.
Qed.

Lemma passed_length (results : list (option string)) :
  length (passed results) = passed_count results.
Proof.
  unfold passed, passed_count.
  induction results as [|v l IH]; [done|].
  rewrite filter_cons. cbn [omap list_omap].
  destruct (truthy_str v) eqn:Hv.
  - destruct v as [s|]; [|discriminate Hv].
    destruct (decide _) as [_|Hn]; [|by destruct Hn].
    simpl. by rewrite IH.
  - destruct (decide _) as [Hy|_]; [by destruct Hy|].
    destruct v; exact IH.
Qed.

(** ** Preprocessing and dispatch *)

Section Dispatch.
Context {W : Type} `{C : Collaborators W}.

Implicit Types (canvas_id session_id provider model prompt aspect_ratio : string).
Implicit Types (input_images : option (list string)) (st : State W) (w : W).

(** The loop calls the preprocessor on one reference after the other and
    keeps the truthy results in order; it stops at the first call that
    raises, with that exception. *)
Lemma process_images_outcome (l acc : list string) st :
  process_images l acc st
  = (match preprocessing_raises l (world st) with
     | Some e => inl e
     | None => inr (acc ++ passed (preprocess_results l (world st)))
     end,
     mkState (world_after_preprocessing l (world st))
             (trace st ++ map ProcessInputImage (attempted l (world st)))).
Proof.
  revert acc st. induction l as [|p l IH]; intros acc st.
  - simpl. unfold ret. rewrite !app_nil_r. by destruct st.
  - simpl. unfold bind, call.
    destruct (process_input_image p (world st)) as [[e|v] w1] eqn:Hp; [done|].
    unfold passed. cbn [omap list_omap]. fold passed.
    destruct (truthy_str v) eqn:Hv.
    + destruct v as [s|]; [|discriminate Hv].
      rewrite IH. simpl.
      destruct (preprocessing_raises l w1); by rewrite <- !app_assoc.
    + rewrite IH. simpl.
      destruct v; destruct (preprocessing_raises l w1); by rewrite <- !app_assoc.
Qed.

Lemma attempted_all (l : list string) w :
  preprocessing_raises l w = None → attempted l w = l.
Proof.
  revert w. induction l as [|p l IH]; intros w; [done|].
  simpl. destruct (process_input_image p w) as [[e|v] w1]; [done|].
  intros Hnone. by rewrite IH.
Qed.

Lemma attempted_prefix (l : list string) w : attempted l w `prefix_of` l.
Proof.
  revert w. induction l as [|p l IH]; intros w; [done|].
  simpl. destruct (process_input_image p w) as [[e|v] w1].
  - by exists l.
  - by apply prefix_cons.
Qed.

Lemma attempted_length (l : list string) w e :
  preprocessing_raises l w = Some e →
  length (attempted l w) = S (length (preprocess_results l w)).
Proof.
  revert w. induction l as [|p l IH]; intros w; [done|].
  simpl. destruct (process_input_image p w) as [[e'|v] w1]; [done|].
  intros Hraise. simpl. by rewrite (IH w1).
Qed.

Lemma preprocess_results_all (l : list string) w :
  preprocessing_raises l w = None → length (preprocess_results l w) = length l.
Proof.
  revert w. induction l as [|p l IH]; intros w; [done|].
  simpl. destruct (process_input_image p w) as [[e|v] w1]; [done|].
  intros Hnone. simpl. by rewrite IH.
Qed.

Lemma preprocess_returns input_images st :
  preprocessing_raises (or_empty input_images) (world st) = None →
  preprocess input_images st
  = (inr (outgoing input_images (world st)),
     mkState (world_after_preprocessing (or_empty input_images) (world st))
             (trace st ++ preprocessing_events input_images (world st))).
Proof.
  intros Hnone. destruct input_images as [[|x l]|].
  - simpl. unfold ret. rewrite app_nil_r. by destruct st.
  - unfold preprocess, bind, emit, ret.
    rewrite process_images_outcome.
    change (or_empty (Some (x :: l))) with (x :: l) in Hnone.
    rewrite Hnone, (attempted_all _ _ Hnone). simpl.
    by rewrite <- !app_assoc.
  - simpl. unfold ret. rewrite app_nil_r. by destruct st.
Qed.

Lemma preprocess_raises input_images st e :
  preprocessing_raises (or_empty input_images) (world st) = Some e →
  preprocess input_images st
  = (inl e,
     mkState (world_after_preprocessing (or_empty input_images) (world st))
             (trace st
                ++ map ProcessInputImage (attempted (or_empty input_images) (world st)))).
Proof.
  intros Hsome. destruct input_images as [[|x l]|]; try done.
  unfold preprocess, bind. rewrite process_images_outcome.
  change (or_empty (Some (x :: l))) with (x :: l) in *.
  by rewrite Hsome.
Qed.

(** An admitted request for a registered provider whose preprocessing calls
    all return: the gate, the lookup, the preprocessing, then one [generate]
    and, if it returns, one save. *)
Lemma run_admitted canvas_id session_id provider model prompt aspect_ratio
    input_images uid w w1 inst :
  uid ≠ 0 →
  check_and_update_credits uid w = (inr true, w1) →
  IMAGE_PROVIDERS !! provider = Some inst →
  preprocessing_raises (or_empty input_images) w1 = None →
  let args := generate_args provider model prompt aspect_ratio input_images w1 in
  let before :=
    [CreditCheck uid; RegistryLookup provider] ++ preprocessing_events input_images w1 in
  generate_image_with_provider canvas_id session_id provider model prompt aspect_ratio
    input_images (Some uid) (start w)
  = match generate inst args (world_after_preprocessing (or_empty input_images) w1) with
    | (inl e, w3) => (inl e, mkState w3 (before ++ [Generate inst args]))
    | (inr (mime_type, width, height, filename), w3) =>
        let saving :=
          SaveImageToCanvas session_id canvas_id filename mime_type width height in
        match save_image_to_canvas session_id canvas_id filename mime_type width height w3
        with
        | (inl e, w4) => (inl e, mkState w4 (before ++ [Generate inst args; saving]))
        | (inr image_url, w4) =>
            (inr (response filename image_url),
             mkState w4 (before ++ [Generate inst args; saving]))
        end
    end.
Proof.
  intros Huid Hgate Hreg Hnone args before.
  rewrite run_authenticated by done. simpl. rewrite Hgate.
  unfold dispatch. unfold bind at 1. unfold emit at 1. simpl. rewrite Hreg.
  unfold bind at 1. rewrite preprocess_returns by done. simpl.
  subst args. unfold generate_args, bind, call, ret. simpl.
  destruct (generate inst _ _) as [[e|[[[mime_type width] height] filename]] w3].
  - subst before. simpl. by rewrite <- ?app_assoc.
  - simpl.
    destruct (save_image_to_canvas _ _ _ _ _ _ w3) as [[e|image_url] w4];
      subst before; simpl; by rewrite <- ?app_assoc.
Qed.

(** An admitted request for a registered provider one of whose
    preprocessing calls raises: the request ends there, with that
    exception. *)
Lemma run_aborted canvas_id session_id provider model prompt aspect_ratio
    input_images uid w w1 inst e :
  uid ≠ 0 →
  check_and_update_credits uid w = (inr true, w1) →
  IMAGE_PROVIDERS !! provider = Some inst →
  preprocessing_raises (or_empty input_images) w1 = Some e →
  generate_image_with_provider canvas_id session_id provider model prompt aspect_ratio
    input_images (Some uid) (start w)
  = (inl e,
     mkState (world_after_preprocessing (or_empty input_images) w1)
             ([CreditCheck uid; RegistryLookup provider]
                ++ map ProcessInputImage (attempted (or_empty input_images) w1))).
Proof.
  intros Huid Hgate Hreg Hsome.
  rewrite run_authenticated by done. simpl. rewrite Hgate.
  unfold dispatch. unfold bind at 1. unfold emit at 1. simpl. rewrite Hreg.
  unfold bind at 1. by rewrite (preprocess_raises _ _ e).
Qed.

End Dispatch.

Lemma str_app_assoc (a b c : string) : (a +:+ b) +:+ c = a +:+ (b +:+ c).
Proof.
  induction a as [|ch a IH]; [done|].
  change (String ch ((a +:+ b) +:+ c) = String ch (a +:+ (b +:+ c))).
  by rewrite IH.
Qed.

Section Pipeline.
Context {W : Type} `{C : Collaborators W}.

Implicit Types (canvas_id session_id provider model prompt aspect_ratio : string).
Implicit Types (input_images : option (list string)) (st : State W) (w : W).

Lemma no_generate_before_dispatch uid provider input_images w :
  generate_calls
    ([CreditCheck uid; RegistryLookup provider] ++ preprocessing_events input_images w)
  = 0%nat.
Proof.
  rewrite generate_calls_app. destruct input_images as [[|x l]|]; try done.
  unfold preprocessing_events. rewrite generate_calls_app.
  by rewrite generate_calls_preprocessing.
Qed.

(** C6, as amended: for an admitted request to a registered provider, two
    cases.  When every preprocessing call returns, the provider is invoked
    once, whatever the preprocessor answered: a reference for which it
    returned no image does not abort the request.  If the list of
    references is non-empty, the provider is handed exactly the
    successfully preprocessed images in input order, failed references
    being dropped without placeholder, and their number is the number of
    references that passed; if the list is absent or empty, the provider is
    handed [None] and not a list.  When a preprocessing call raises, the
    request is aborted with that exception and no provider is invoked. *)
Theorem provider_receives_passed_images canvas_id session_id provider model prompt
    aspect_ratio input_images uid w w1 inst :
  uid ≠ 0 →
  check_and_update_credits uid w = (inr true, w1) →
  IMAGE_PROVIDERS !! provider = Some inst →
  let r := generate_image_with_provider canvas_id session_id provider model prompt
             aspect_ratio input_images (Some uid) (start w) in
  (preprocessing_raises (or_empty input_images) w1 = None →
   ∃ images,
     handed_to_provider (trace r.2) = Some images
     ∧ generate_calls (trace r.2) = 1%nat
     ∧ match input_images with
       | Some (x :: l) =>
           images = Some (passed (preprocess_results (x :: l) w1))
           ∧ length (passed (preprocess_results (x :: l) w1))
             = passed_count (preprocess_results (x :: l) w1)
           ∧ length (preprocess_results (x :: l) w1) = length (x :: l)
       | _ => images = None
       end)
  ∧ (∀ e, preprocessing_raises (or_empty input_images) w1 = Some e →
     outcome r = inl e
     ∧ generate_calls (trace r.2) = 0%nat
     ∧ handed_to_provider (trace r.2) = None).
Proof.
  intros Huid Hgate Hreg. cbv zeta. split.
  - intros Hnone.
    exists (outgoing input_images w1).
    rewrite (run_admitted _ _ _ _ _ _ _ _ _ _ _ Huid Hgate Hreg Hnone).
    pose proof (no_generate_before_dispatch uid provider input_images w1) as Hquiet.
    split; [|split].
    + destruct (generate inst _ _) as [[e|[[[mime_type width] height] filename]] w3];
        [|destruct (save_image_to_canvas _ _ _ _ _ _ w3) as [[e|image_url] w4]];
        cbn [snd trace]; by rewrite handed_to_provider_skip.
    + destruct (generate inst _ _) as [[e|[[[mime_type width] height] filename]] w3];
        [|destruct (save_image_to_canvas _ _ _ _ _ _ w3) as [[e|image_url] w4]];
        cbn [snd trace]; rewrite generate_calls_app, Hquiet; reflexivity.
    + destruct input_images as [[|x l]|]; try done.
      split; [done|]. split; [apply passed_length|].
      by apply preprocess_results_all.
  - intros e Hraise.
    rewrite (run_aborted _ _ _ _ _ _ _ _ _ _ _ _ Huid Hgate Hreg Hraise).
    cbn [outcome fst snd trace].
    assert (generate_calls
              ([CreditCheck uid; RegistryLookup provider]
                 ++ map ProcessInputImage (attempted (or_empty input_images) w1)) = 0%nat)
      as Hquiet.
    { by rewrite generate_calls_app, generate_calls_preprocessing. }
    split; [done|]. split; [done|].
    rewrite <- (app_nil_r (_ ++ _)). by rewrite handed_to_provider_skip.
Qed.

(** C8, as amended: when the canvas store raises after the provider has
    returned (so every preprocessing call before it returned), the very
    exception of the canvas store reaches the caller, the provider has been
    invoked exactly once, and the failed save is the last action of the
    request: nothing undoes the provider call.  The orchestrator adds no
    classification of its own to the exception. *)
Theorem persistence_failure_propagates canvas_id session_id provider model prompt
    aspect_ratio input_images uid w w1 inst mime_type width height filename w3 e w4 :
  uid ≠ 0 →
  check_and_update_credits uid w = (inr true, w1) →
  IMAGE_PROVIDERS !! provider = Some inst →
  preprocessing_raises (or_empty input_images) w1 = None →
  generate inst (generate_args provider model prompt aspect_ratio input_images w1)
    (world_after_preprocessing (or_empty input_images) w1)
  = (inr (mime_type, width, height, filename), w3) →
  save_image_to_canvas session_id canvas_id filename mime_type width height w3
  = (inl e, w4) →
  ∃ t,
    generate_image_with_provider canvas_id session_id provider model prompt aspect_ratio
      input_images (Some uid) (start w)
    = (inl e, mkState w4 t)
    ∧ generate_calls t = 1%nat
    ∧ last t = Some (SaveImageToCanvas session_id canvas_id filename mime_type width height).
Proof.
  intros Huid Hgate Hreg Hnone Hgen Hsave.
  rewrite (run_admitted _ _ _ _ _ _ _ _ _ _ _ Huid Hgate Hreg Hnone).
  rewrite Hgen, Hsave. eexists. split; [reflexivity|]. split.
  - rewrite generate_calls_app, no_generate_before_dispatch. reflexivity.
  - rewrite last_app. reflexivity.
Qed.

(** C9: when every step succeeds (the preprocessing calls return, the
    provider and the canvas store return), the call returns the string of
    line 96.
    It contains the artifact identifier returned by the provider and the
    base URL, which is built from the configured port alone, and the link
    in it is the base URL followed by the path the canvas store returned;
    when that path is "/api/file/" followed by the identifier, the link is
    the base URL, the fixed path and the identifier. *)
Theorem success_response_embeds_artifact canvas_id session_id provider model prompt
    aspect_ratio input_images uid w w1 inst mime_type width height filename w3
    image_url w4 :
  uid ≠ 0 →
  check_and_update_credits uid w = (inr true, w1) →
  IMAGE_PROVIDERS !! provider = Some inst →
  preprocessing_raises (or_empty input_images) w1 = None →
  generate inst (generate_args provider model prompt aspect_ratio input_images w1)
    (world_after_preprocessing (or_empty input_images) w1)
  = (inr (mime_type, width, height, filename), w3) →
  save_image_to_canvas session_id canvas_id filename mime_type width height w3
  = (inr image_url, w4) →
  ∃ s,
    outcome (generate_image_with_provider canvas_id session_id provider model prompt
               aspect_ratio input_images (Some uid) (start w)) = inr s
    ∧ s = "image generated successfully ![image_id: " +:+ filename +:+ "]("
            +:+ base_url +:+ image_url +:+ ")"
    ∧ contains s filename
    ∧ contains s base_url
    ∧ (image_url = "/api/file/" +:+ filename →
       contains s (base_url +:+ "/api/file/" +:+ filename)).
Proof.
  intros Huid Hgate Hreg Hnone Hgen Hsave.
  rewrite (run_admitted _ _ _ _ _ _ _ _ _ _ _ Huid Hgate Hreg Hnone).
  rewrite Hgen, Hsave. eexists. split; [reflexivity|].
  unfold response, base_url. split; [|split; [|split]].
  - rewrite !str_app_assoc. reflexivity.
  - by eexists _, _.
  - exists ("image generated successfully ![image_id: " +:+ filename +:+ "]("),
           (image_url +:+ ")").
    rewrite !str_app_assoc. reflexivity.
  - intros ->.
    exists ("image generated successfully ![image_id: " +:+ filename +:+ "]("), ")".
    rewrite !str_app_assoc. reflexivity.
Qed.

End Pipeline.

(** ** The orchestrator over the credit store *)

Section Deployed.
Context {X : Type} (B : Backends X).

Implicit Types (canvas_id session_id provider model prompt aspect_ratio : string).
Implicit Types (input_images : option (list string)) (w : DWorld X).

Lemma gate_admits uid n w :
  credits w !! uid = Some n → 0 < n →
  gate uid w = (inr true, mkDWorld (<[uid := n - 1]> (credits w)) (ext w)).
Proof.
  intros Hn Hpos. unfold gate, CreditStore.check_and_update_credits.
  rewrite Hn. by rewrite decide_True.
Qed.

(** Preprocessing works on the external state only. *)
Lemma preprocessing_keeps_credits (l : list string) w :
  credits (world_after_preprocessing (H := deployed B) l w) = credits w.
Proof.
  revert w. induction l as [|p l IH]; intros w; [done|].
  simpl. unfold on_ext.
  destruct (b_process_input_image B p (ext w)) as [[e|v] x']; [done|].
  by rewrite IH.
Qed.

Lemma no_credit_check_in_preprocessing input_images w :
  credit_checks (preprocessing_events (H := deployed B) input_images w) = 0%nat.
Proof.
  destruct input_images as [[|x l]|]; try done.
  unfold preprocessing_events. rewrite credit_checks_app.
  by rewrite credit_checks_preprocessing.
Qed.

(** C4: an authenticated user holding [n > 0] credits who names an unknown
    provider is admitted first, so the counter goes to [n - 1], and the
    request then fails at the registry with [ValueError]: the trace holds
    the credit check and the lookup and nothing else, so no input image was
    preprocessed and no provider was invoked, and the rest of the world is
    as it was. *)
Theorem unknown_provider_fails_after_decrement canvas_id session_id provider model
    prompt aspect_ratio input_images uid n w :
  uid ≠ 0 →
  credits w !! uid = Some n →
  0 < n →
  IMAGE_PROVIDERS !! provider = None →
  generate_image_with_provider (C := deployed B) canvas_id session_id provider model
    prompt aspect_ratio input_images (Some uid) (start w)
  = (inl (ValueError ("Unknown provider: " +:+ provider)),
     mkState (mkDWorld (<[uid := n - 1]> (credits w)) (ext w))
             [CreditCheck uid; RegistryLookup provider]).
Proof.
  intros Huid Hn Hpos Hreg.
  rewrite run_authenticated by done.
  change (check_and_update_credits uid (world (start w))) with (gate uid w).
  rewrite (gate_admits _ _ _ Hn Hpos).
  unfold dispatch, bind, emit. simpl. by rewrite Hreg.
Qed.

(** C5: when [generate] raises for an admitted request (whose
    preprocessing calls have returned), that exception reaches the caller;
    the counter of the user stays at [n - 1], the value the gate left, and
    every other counter is as before; the gate was asked once and a provider
    was invoked once, the failed call being the last action of the
    request. *)
Theorem provider_failure_not_refunded canvas_id session_id provider model prompt
    aspect_ratio input_images uid n w inst e x3 :
  uid ≠ 0 →
  credits w !! uid = Some n →
  0 < n →
  IMAGE_PROVIDERS !! provider = Some inst →
  let w1 := mkDWorld (<[uid := n - 1]> (credits w)) (ext w) in
  let args :=
    generate_args (H := deployed B) provider model prompt aspect_ratio input_images w1 in
  preprocessing_raises (H := deployed B) (or_empty input_images) w1 = None →
  b_generate B inst args
    (ext (world_after_preprocessing (H := deployed B) (or_empty input_images) w1))
  = (inl e, x3) →
  ∃ t,
    generate_image_with_provider (C := deployed B) canvas_id session_id provider model
      prompt aspect_ratio input_images (Some uid) (start w)
    = (inl e, mkState (mkDWorld (<[uid := n - 1]> (credits w)) x3) t)
    ∧ credit_checks t = 1%nat
    ∧ generate_calls t = 1%nat
    ∧ last t = Some (Generate inst args).
Proof.
  intros Huid Hn Hpos Hreg w1 args Hnone Hgen.
  rewrite (run_admitted (C := deployed B) _ _ _ _ _ _ _ _ w w1 inst Huid
             (gate_admits _ _ _ Hn Hpos) Hreg Hnone).
  fold args.
  change (generate inst args ?w2) with (on_ext (b_generate B inst args) w2).
  unfold on_ext. rewrite Hgen, preprocessing_keeps_credits.
  eexists. split; [reflexivity|]. split; [|split].
  - rewrite !credit_checks_app, no_credit_check_in_preprocessing. reflexivity.
  - rewrite generate_calls_app, no_generate_before_dispatch. reflexivity.
  - rewrite last_app. reflexivity.
Qed.

End Deployed.

(** ** The gate under concurrent callers *)

Section Gate.
Import CreditStore.

Variable u : Z.

Lemma attempts_app (l1 l2 : list Z) :
  attempts u (l1 ++ l2) = (attempts u l1 + attempts u l2)%nat.
Proof. unfold attempts. by rewrite filter_app, length_app. Qed.

Lemma attempts_cons (v : Z) (l : list Z) :
  attempts u (v :: l) = ((if decide (v = u) then 1 else 0) + attempts u l)%nat.
Proof. unfold attempts. rewrite filter_cons. by destruct (decide (v = u)). Qed.

Lemma answered_snoc (replies : list (Z * bool)) (v : Z) (ok : bool) :
  answered u (replies ++ [(v, ok)])
  = (answered u replies + (if decide (v = u) then 1 else 0))%nat.
Proof.
  unfold answered. rewrite filter_app, length_app. f_equal.
  rewrite filter_cons. simpl. by destruct (decide (v = u)).
Qed.

Lemma admitted_snoc (replies : list (Z * bool)) (v : Z) (ok : bool) :
  admitted u (replies ++ [(v, ok)])
  = (admitted u replies + (if decide (v = u) then (if ok then 1 else 0) else 0))%nat.
Proof.
  unfold admitted. rewrite filter_app, length_app. f_equal.
  rewrite filter_cons. simpl.
  destruct (decide (v = u)) as [->|Hne], ok; simpl;
    destruct (decide _) as [[? ?]|Hn]; try done; exfalso; apply Hn; done.
Qed.

(** What one call does to the counter of [u]. *)
Lemma gate_on_counter (v : Z) (credits : gmap Z Z) (c : Z) :
  credits !! u = Some c → 0 ≤ c →
  (check_and_update_credits v credits).2 !! u
  = Some (if decide (v = u) then (if decide (0 < c) then c - 1 else c) else c)
  ∧ (v = u → (check_and_update_credits v credits).1 = bool_decide (0 < c)).
Proof.
  intros Hc Hpos. unfold check_and_update_credits.
  destruct (decide (v = u)) as [->|Hne].
  - rewrite Hc. destruct (decide (0 < c)); simpl.
    + rewrite lookup_insert_eq. by rewrite bool_decide_eq_true_2.
    + by rewrite bool_decide_eq_false_2.
  - split; [|done].
    destruct (credits !! v) as [m|]; [|done].
    destruct (decide (0 < m)); simpl; [|done].
    by rewrite lookup_insert_ne.
Qed.

Lemma step_balanced (N : Z) (calls : list Z) (cfg cfg' : Config) :
  step cfg cfg' → balanced u N calls cfg → balanced u N calls cfg'.
Proof.
  intros Hstep (c & Hc & Hpos & Hadm & Hsum & Hans).
  destruct Hstep as [before after v credits replies]. simpl in *.
  destruct (gate_on_counter v credits c Hc Hpos) as [Hlk Hok].
  rewrite attempts_app, attempts_cons in Hadm, Hans.
  unfold balanced. simpl.
  rewrite admitted_snoc, answered_snoc, attempts_app, Hlk.
  destruct (decide (v = u)) as [->|Hne].
  - rewrite (Hok eq_refl).
    destruct (decide (0 < c)) as [Hc1|Hc0].
    + rewrite bool_decide_eq_true_2 by done.
      exists (c - 1). repeat split; try lia.
    + rewrite bool_decide_eq_false_2 by done.
      exists c. repeat split; try lia.
  - exists c. repeat split; try lia.
Qed.

Lemma run_balanced (N : Z) (calls : list Z) (cfg cfg' : Config) :
  rtc step cfg cfg' → balanced u N calls cfg → balanced u N calls cfg'.
Proof. induction 1; eauto using step_balanced. Qed.

End Gate.

Lemma serve_in_order_reaches (calls : list Z) (credits : gmap Z Z)
    (replies : list (Z * bool)) :
  rtc CreditStore.step (CreditStore.mkConfig calls credits replies)
      (CreditStore.serve_in_order calls credits replies)
  ∧ CreditStore.pending (CreditStore.serve_in_order calls credits replies) = [].
Proof.
  revert credits replies. induction calls as [|v calls IH]; intros credits replies.
  - split; [apply rtc_refl|done].
  - destruct (IH (CreditStore.check_and_update_credits v credits).2
                 (replies ++ [(v, (CreditStore.check_and_update_credits v credits).1)]))
      as [Hrun Hdone].
    split; [|exact Hdone].
    eapply rtc_l; [|exact Hrun].
    exact (CreditStore.step_serve [] calls v credits replies).
  Qed.

(** C2: with the gate one atomic check-and-decrement, a user holding
    [N > 0] credits is admitted exactly [min N k] times out of [k]
    concurrent attempts, in whatever order the datastore serves the pending
    calls of all users: every schedule runs to completion, every attempt is
    answered once, exactly [N] attempts succeed as soon as [k >= N] and all
    the others are denied, and the counter ends at [N] minus the number of
    admissions, never below zero. *)
Theorem gate_admits_exactly_the_quota (credits : gmap Z Z) (u N : Z) (calls : list Z) :
  credits !! u = Some N →
  0 < N →
  (∃ final,
     rtc CreditStore.step (CreditStore.mkConfig calls credits []) final
     ∧ CreditStore.pending final = [])
  ∧ ∀ final,
      rtc CreditStore.step (CreditStore.mkConfig calls credits []) final →
      CreditStore.pending final = [] →
      CreditStore.admitted u (CreditStore.answers final)
      = Nat.min (Z.to_nat N) (CreditStore.attempts u calls)
      ∧ CreditStore.answered u (CreditStore.answers final) = CreditStore.attempts u calls
      ∧ CreditStore.ledger final !! u
        = Some (N - Z.of_nat (CreditStore.admitted u (CreditStore.answers final)))
      ∧ 0 ≤ N - Z.of_nat (CreditStore.admitted u (CreditStore.answers final)).
Proof.
  intros HN Hpos. split.
  - exists (CreditStore.serve_in_order calls credits []).
    apply serve_in_order_reaches.
  - intros final Hrun Hdone.
    assert (CreditStore.balanced u N calls (CreditStore.mkConfig calls credits []))
      as Hinit.
    { exists N. simpl. repeat split; try done; lia. }
    destruct (run_balanced u N calls _ _ Hrun Hinit) as (c & Hc & Hc0 & Hadm & Hsum & Hans).
    rewrite Hdone in Hadm, Hans. simpl in Hadm, Hans.
    unfold CreditStore.attempts at 1 in Hadm. simpl in Hadm.
    unfold CreditStore.attempts at 1 in Hans. simpl in Hans.
    rewrite Nat.min_0_r in Hadm.
    repeat split; try lia.
    rewrite Hc. f_equal. lia.
Qed.

(** * The properties on sample runs *)

(** The registry holds the five names of the source and no other. *)
Example registry_lookup :
  IMAGE_PROVIDERS !! "openai" = Some OpenAIImageProvider
  ∧ IMAGE_PROVIDERS !! "wavespeed" = Some WavespeedProvider
  ∧ IMAGE_PROVIDERS !! "midjourney" = None
  ∧ size IMAGE_PROVIDERS = 5%nat.
Proof. repeat split; reflexivity. Qed.

(** The end-to-end scenario: one credit, provider "openai", no input image. *)
Example end_to_end :
  outcome (sample_run sample_backends "openai" None (Some 1) 1)
  = inr "image generated successfully ![image_id: abc123](http://localhost:57988/api/file/abc123)"
  ∧ credits (world (sample_run sample_backends "openai" None (Some 1) 1).2) !! 1 = Some 0.
Proof. split; reflexivity. Qed.

(** The same request repeated at once by the same user, who now holds no
    credit: 429, and no provider call in the trace of the second request. *)
Example repeated_request_denied :
  outcome (sample_request (H := deployed sample_backends) "openai" None (Some 1)
             (start (world (sample_run sample_backends "openai" None (Some 1) 1).2)))
  = inl (HTTPException 429 "Batas pembuatan gambar harian telah tercapai.")
  ∧ generate_calls
      (trace (sample_request (H := deployed sample_backends) "openai" None (Some 1)
                (start (world (sample_run sample_backends "openai" None (Some 1) 1).2))).2)
    = 0%nat.
Proof. split; reflexivity. Qed.

(** User id 0 is turned away although it is not null. *)
Lemma falsy_user_rejected_like_null_witness :
  sample_run sample_backends "openai" None (Some 0) 1
  = (inl (HTTPException 401 "User authentication required for image generation."),
     start (one_user 1)).
Proof.
  exact (proj1 (@falsy_user_rejected_like_null _ (deployed sample_backends)
                  "canvas-1" "session-1" "openai" "x" "a cat" "1:1" None (Some 0)
                  (start (one_user 1)) (or_intror eq_refl))).
Defined.

(** A user without credits: 429 and a trace of one credit check. *)
Lemma denied_raises_429_before_any_work_witness :
  sample_run sample_backends "openai" (Some ["a.png"]) (Some 1) 0
  = (inl (HTTPException 429 "Batas pembuatan gambar harian telah tercapai."),
     mkState (one_user 0) [CreditCheck 1]).
Proof.
  destruct (@denied_raises_429_before_any_work _ (deployed sample_backends)
              "canvas-1" "session-1" "openai" "x" "a cat" "1:1" (Some ["a.png"]) 1
              (one_user 0) (one_user 0)) as (e & Hrun & -> & _).
  - discriminate.
  - reflexivity.
  - exact Hrun.
Defined.

(** An unregistered name. *)
Lemma unknown_provider_raises_value_error_witness :
  sample_run sample_backends "midjourney" None (Some 1) 1
  = (inl (ValueError "Unknown provider: midjourney"),
     mkState (one_user 0) [CreditCheck 1; RegistryLookup "midjourney"]).
Proof.
  destruct (@unknown_provider_raises_value_error _ (deployed sample_backends)
              "canvas-1" "session-1" "midjourney" "x" "a cat" "1:1" None 1
              (one_user 1) (one_user 0)) as (e & Hrun & -> & _).
  - discriminate.
  - reflexivity.
  - reflexivity.
  - exact Hrun.
Defined.

(** The last credit is spent on a request that names no registered provider. *)
Lemma unknown_provider_fails_after_decrement_witness :
  sample_run sample_backends "midjourney" (Some ["a.png"]) (Some 1) 1
  = (inl (ValueError "Unknown provider: midjourney"),
     mkState (mkDWorld (<[1 := 1 - 1]> {[ 1 := 1 ]}) tt)
             [CreditCheck 1; RegistryLookup "midjourney"]).
Proof.
  apply (unknown_provider_fails_after_decrement sample_backends
           "canvas-1" "session-1" "midjourney" "x" "a cat" "1:1" (Some ["a.png"]) 1 1
           (one_user 1)).
  - discriminate.
  - reflexivity.
  - reflexivity.
  - reflexivity.
Defined.

(** The provider fails: the credit is gone all the same. *)
Lemma provider_failure_not_refunded_witness :
  outcome (sample_run failing_provider "openai" None (Some 1) 1)
  = inl (Exception "RuntimeError" "connection reset")
  ∧ credits (world (sample_run failing_provider "openai" None (Some 1) 1).2) !! 1
    = Some 0
  ∧ generate_calls (trace (sample_run failing_provider "openai" None (Some 1) 1).2)
    = 1%nat.
Proof.
  destruct (provider_failure_not_refunded failing_provider
              "canvas-1" "session-1" "openai" "x" "a cat" "1:1" None 1 1 (one_user 1)
              OpenAIImageProvider (Exception "RuntimeError" "connection reset") tt)
    as (t & Hrun & _ & Hgen & _).
  - discriminate.
  - reflexivity.
  - reflexivity.
  - reflexivity.
  - reflexivity.
  - reflexivity.
  - unfold sample_run, sample_request. rewrite Hrun.
    split; [reflexivity|]. split; [reflexivity|exact Hgen].
Defined.

(** Three references of which the second fails: two payloads go out. *)
Lemma provider_receives_passed_images_witness :
  handed_to_provider
    (trace (sample_run sample_backends "openai"
              (Some ["a.png"; "broken.png"; "b.png"]) (Some 1) 1).2)
  = Some (Some ["data:image/png;base64,a.png"; "data:image/png;base64,b.png"]).
Proof.
  destruct (@provider_receives_passed_images _ (deployed sample_backends)
              "canvas-1" "session-1" "openai" "x" "a cat" "1:1"
              (Some ["a.png"; "broken.png"; "b.png"]) 1 (one_user 1) (one_user 0)
              OpenAIImageProvider) as (Hreturn & _).
  - discriminate.
  - reflexivity.
  - reflexivity.
  - destruct (Hreturn eq_refl) as (images & Hhanded & _ & -> & _).
    exact Hhanded.
Defined.

(** The canvas store fails after the provider returned. *)
Lemma persistence_failure_propagates_witness :
  outcome (sample_run failing_persister "openai" None (Some 1) 1)
  = inl (Exception "RuntimeError" "connection reset").
Proof.
  destruct (@persistence_failure_propagates _ (deployed failing_persister)
              "canvas-1" "session-1" "openai" "x" "a cat" "1:1" None 1
              (one_user 1) (one_user 0) OpenAIImageProvider
              "image/png" 512 512 "abc123" (one_user 0)
              (Exception "RuntimeError" "connection reset") (one_user 0))
    as (t & Hrun & _).
  - discriminate.
  - reflexivity.
  - reflexivity.
  - reflexivity.
  - reflexivity.
  - reflexivity.
  - unfold sample_run, sample_request. rewrite Hrun. reflexivity.
Defined.

(** The end-to-end scenario through the general statement. *)
Lemma success_response_embeds_artifact_witness :
  ∃ s,
    outcome (sample_run sample_backends "openai" None (Some 1) 1) = inr s
    ∧ contains s "abc123"
    ∧ contains s "http://localhost:57988"
    ∧ contains s "http://localhost:57988/api/file/abc123".
Proof.
  destruct (@success_response_embeds_artifact _ (deployed sample_backends)
              "canvas-1" "session-1" "openai" "x" "a cat" "1:1" None 1
              (one_user 1) (one_user 0) OpenAIImageProvider
              "image/png" 512 512 "abc123" (one_user 0) "/api/file/abc123" (one_user 0))
    as (s & Hrun & _ & Hid & Hbase & Hlink).
  - discriminate.
  - reflexivity.
  - reflexivity.
  - reflexivity.
  - reflexivity.
  - reflexivity.
  - exists s. split; [exact Hrun|]. split; [exact Hid|]. split; [exact Hbase|].
    exact (Hlink eq_refl).
Defined.

(** Two credits, three attempts of the user among those of another one. *)
Lemma gate_admits_exactly_the_quota_witness :
  CreditStore.admitted 1
    (CreditStore.answers (CreditStore.serve_in_order [1; 2; 1; 1] {[ 1 := 2 ]} []))
  = 2%nat.
Proof.
  destruct (gate_admits_exactly_the_quota {[ 1 := 2 ]} 1 2 [1; 2; 1; 1]) as [_ Hall].
  - reflexivity.
  - reflexivity.
  - destruct (Hall (CreditStore.serve_in_order [1; 2; 1; 1] {[ 1 := 2 ]} [])
                (proj1 (serve_in_order_reaches [1; 2; 1; 1] {[ 1 := 2 ]} []))
                eq_refl) as (Hadmitted & _).
    exact Hadmitted.
Defined.

(** Two runs.  An empty list of references: the provider is handed [None],
    which is not the empty list of passed images.  Three references, for
    the second of which the preprocessor raises: the request is aborted
    with that exception, the third reference is not preprocessed and no
    provider is invoked. *)
Lemma empty_list_hands_none_and_raising_reference_aborts :
  (handed_to_provider
     (trace (sample_run sample_backends "openai" (Some []) (Some 1) 1).2) = Some None
   ∧ handed_to_provider
       (trace (sample_run sample_backends "openai" (Some []) (Some 1) 1).2)
     ≠ Some (Some (passed (preprocess_results (H := deployed sample_backends) []
                             (one_user 0)))))
  ∧ (outcome (sample_run sample_backends "openai"
                (Some ["a.png"; "locked.png"; "b.png"]) (Some 1) 1)
     = inl (Exception "PermissionError" "Permission denied")
     ∧ trace (sample_run sample_backends "openai"
                (Some ["a.png"; "locked.png"; "b.png"]) (Some 1) 1).2
       = [CreditCheck 1; RegistryLookup "openai"; ProcessInputImage "a.png";
          ProcessInputImage "locked.png"]
     ∧ generate_calls
         (trace (sample_run sample_backends "openai"
                   (Some ["a.png"; "locked.png"; "b.png"]) (Some 1) 1).2) = 0%nat).
Proof. split; [split; [reflexivity|discriminate]|repeat split; reflexivity]. Qed.

(** A canvas store and a provider that fail with the same exception: the
    caller of the request whose save failed, after one successful provider
    call, observes what the caller of the request whose provider failed
    observes. *)
Lemma persistence_failure_reported_like_provider_failure :
  generate_calls (trace (sample_run failing_persister "openai" None (Some 1) 1).2) = 1%nat
  ∧ last (trace (sample_run failing_persister "openai" None (Some 1) 1).2)
    = Some (SaveImageToCanvas "session-1" "canvas-1" "abc123" "image/png" 512 512)
  ∧ is_generate <$> last (trace (sample_run failing_provider "openai" None (Some 1) 1).2)
    = Some true
  ∧ outcome (sample_run failing_persister "openai" None (Some 1) 1)
    = outcome (sample_run failing_provider "openai" None (Some 1) 1).
Proof. repeat split; reflexivity. Qed.

(** * Further properties of the orchestrator *)

Lemma save_calls_app (t1 t2 : list Event) :
  save_calls (t1 ++ t2) = (save_calls t1 + save_calls t2)%nat.
Proof. unfold save_calls. by rewrite filter_app, length_app. Qed.

Lemma preprocessed_paths_app (t1 t2 : list Event) :
  preprocessed_paths (t1 ++ t2) = preprocessed_paths t1 ++ preprocessed_paths t2.
Proof. unfold preprocessed_paths. apply omap_app. Qed.

Lemma preprocessed_paths_map (l : list string) :
  preprocessed_paths (map ProcessInputImage l) = l.
Proof. induction l as [|p l IH]; [done|]. simpl. by rewrite IH. Qed.

Lemma save_calls_preprocessing (l : list string) :
  save_calls (map ProcessInputImage l) = 0%nat.
Proof. induction l as [|p l IH]; [done|exact IH]. Qed.

Section Accounting.
Context {W : Type} `{C : Collaborators W}.

Implicit Types (canvas_id session_id provider model prompt aspect_ratio : string).
Implicit Types (input_images : option (list string)) (st : State W) (w : W).

Lemma quiet_lookup provider : quiet [RegistryLookup provider].
Proof. by repeat split. Qed.

Lemma quiet_app (t1 t2 : list Event) : quiet t1 → quiet t2 → quiet (t1 ++ t2).
Proof.
  intros (H1 & H2 & H3) (H4 & H5 & H6). unfold quiet.
  rewrite credit_checks_app, generate_calls_app, save_calls_app. lia.
Qed.

Lemma quiet_preprocessing (l : list string) : quiet (map ProcessInputImage l).
Proof.
  unfold quiet.
  by rewrite credit_checks_preprocessing, generate_calls_preprocessing,
    save_calls_preprocessing.
Qed.

Lemma quiet_preprocessing_events input_images w :
  quiet (preprocessing_events input_images w).
Proof.
  destruct input_images as [[|x l]|]; try by repeat split.
  unfold preprocessing_events. apply quiet_app; [apply quiet_preprocessing|].
  by repeat split.
Qed.

(** X1: when the gate itself raises (the datastore cannot be reached, say), the
    exception reaches the caller as it is, and the request ends there: the
    trace holds the credit check alone. *)
Theorem gate_failure_propagates canvas_id session_id provider model prompt aspect_ratio
    input_images uid w e w' :
  uid ≠ 0 →
  check_and_update_credits uid w = (inl e, w') →
  generate_image_with_provider canvas_id session_id provider model prompt aspect_ratio
    input_images (Some uid) (start w)
  = (inl e, mkState w' [CreditCheck uid]).
Proof.
  intros Huid Hgate. rewrite run_authenticated by done. simpl. by rewrite Hgate.
Qed.

(** X2: whatever the arguments and whatever the collaborators do, the trace
    of one request has one of four shapes: nothing at all; the credit check
    followed by actions that are no credit check, provider call or save;
    that, followed by one provider call; or that, followed by one provider
    call and one save.  So the credit check is the first action of every
    request that acts, a provider is invoked at most once and only after the
    credit check, and a save is made at most once and only right after the
    provider call.  A request that returns a string has the last shape. *)
Theorem one_check_one_generate_one_save canvas_id session_id provider model prompt
    aspect_ratio input_images user_id w :
  let r := generate_image_with_provider canvas_id session_id provider model prompt
             aspect_ratio input_images user_id (start w) in
  (trace r.2 = [] ∧ ∃ e, r.1 = inl e)
  ∨ ∃ uid before,
      user_id = Some uid ∧ quiet before
      ∧ ((trace r.2 = CreditCheck uid :: before ∧ ∃ e, r.1 = inl e)
         ∨ (∃ inst args,
              trace r.2 = CreditCheck uid :: before ++ [Generate inst args]
              ∧ ∃ e, r.1 = inl e)
         ∨ (∃ inst args mime_type width height filename,
              trace r.2
              = CreditCheck uid :: before
                  ++ [Generate inst args;
                      SaveImageToCanvas session_id canvas_id filename mime_type
                        width height])).
Proof.
  cbv zeta.
  destruct user_id as [uid|]; [|left; split; [done|by eexists]].
  destruct (decide (uid = 0)) as [->|Huid]; [left; split; [done|by eexists]|].
  right. exists uid.
  destruct (check_and_update_credits uid w) as [[e|[|]] w1] eqn:Hgate.
  - rewrite run_authenticated by done. simpl. rewrite Hgate.
    exists []. split; [done|]. split; [by repeat split|]. left. split; [done|by eexists].
  - destruct (IMAGE_PROVIDERS !! provider) as [inst|] eqn:Hreg.
    + destruct (preprocessing_raises (or_empty input_images) w1) as [e|] eqn:Hraise.
      * rewrite (run_aborted _ _ _ _ _ _ _ _ _ _ _ _ Huid Hgate Hreg Hraise).
        eexists. split; [done|].
        split; [apply quiet_app; [apply quiet_lookup|apply quiet_preprocessing]|].
        left. split; [done|by eexists].
      * rewrite (run_admitted _ _ _ _ _ _ _ _ _ _ _ Huid Hgate Hreg Hraise).
        exists ([RegistryLookup provider] ++ preprocessing_events input_images w1).
        split; [done|].
        split; [apply quiet_app; [apply quiet_lookup|apply quiet_preprocessing_events]|].
        destruct (generate inst _ _) as [[e|[[[mime_type width] height] filename]] w3];
          [|destruct (save_image_to_canvas _ _ _ _ _ _ w3) as [[e|image_url] w4]];
          cbn [snd fst trace].
        -- right; left. eexists _, _. split; [by rewrite <- app_assoc|by eexists].
        -- right; right. eexists _, _, _, _, _, _. by rewrite <- app_assoc.
        -- right; right. eexists _, _, _, _, _, _. by rewrite <- app_assoc.
    + rewrite run_authenticated by done. simpl. rewrite Hgate.
      unfold dispatch, bind, emit. simpl. rewrite Hreg.
      exists [RegistryLookup provider]. split; [done|]. split; [apply quiet_lookup|].
      left. split; [done|by eexists].
  - rewrite run_authenticated by done. simpl. rewrite Hgate.
    exists []. split; [done|]. split; [by repeat split|]. left. split; [done|by eexists].
Qed.

(** X3: for an admitted request to a registered provider, the preprocessor
    is called on the references in input order, each at most once: the
    references it is called on form a prefix of the list.  When every call
    returns, the prefix is the whole list, a failed reference neither
    ending the loop nor being tried again.  When a call raises, the
    exception reaches the caller, the later references are not
    preprocessed, and neither a provider nor the canvas store is invoked. *)
Theorem every_reference_preprocessed_once canvas_id session_id provider model prompt
    aspect_ratio input_images uid w w1 inst :
  uid ≠ 0 →
  check_and_update_credits uid w = (inr true, w1) →
  IMAGE_PROVIDERS !! provider = Some inst →
  let r := generate_image_with_provider canvas_id session_id provider model prompt
             aspect_ratio input_images (Some uid) (start w) in
  preprocessed_paths (trace r.2) `prefix_of` or_empty input_images
  ∧ (preprocessing_raises (or_empty input_images) w1 = None →
     preprocessed_paths (trace r.2) = or_empty input_images)
  ∧ (∀ e, preprocessing_raises (or_empty input_images) w1 = Some e →
     r.1 = inl e
     ∧ generate_calls (trace r.2) = 0%nat
     ∧ save_calls (trace r.2) = 0%nat
     ∧ (length (preprocessed_paths (trace r.2))
        = S (length (preprocess_results (or_empty input_images) w1)))).
Proof.
  intros Huid Hgate Hreg. cbv zeta.
  destruct (preprocessing_raises (or_empty input_images) w1) as [e|] eqn:Hraise.
  - rewrite (run_aborted _ _ _ _ _ _ _ _ _ _ _ _ Huid Hgate Hreg Hraise).
    cbn [snd fst trace]. rewrite preprocessed_paths_app, preprocessed_paths_map.
    change (preprocessed_paths [CreditCheck uid; RegistryLookup provider]) with (@nil string).
    rewrite app_nil_l.
    split; [apply attempted_prefix|]. split; [done|].
    intros e' [= <-]. split; [done|].
    rewrite generate_calls_app, save_calls_app, generate_calls_preprocessing,
      save_calls_preprocessing.
    split; [done|]. split; [done|]. by eapply attempted_length.
  - rewrite (run_admitted _ _ _ _ _ _ _ _ _ _ _ Huid Hgate Hreg Hraise).
    assert (preprocessed_paths
              ([CreditCheck uid; RegistryLookup provider]
                 ++ preprocessing_events input_images w1) = or_empty input_images)
      as Hp.
    { rewrite preprocessed_paths_app.
      destruct input_images as [[|x l]|]; try done.
      unfold preprocessing_events.
      rewrite preprocessed_paths_app, preprocessed_paths_map. simpl.
      by rewrite app_nil_r. }
    destruct (generate inst _ _) as [[e|[[[mime_type width] height] filename]] w3];
      [|destruct (save_image_to_canvas _ _ _ _ _ _ w3) as [[e|image_url] w4]];
      cbn [snd fst trace]; rewrite preprocessed_paths_app, Hp; simpl;
      rewrite app_nil_r; by repeat split.
Qed.

(** X4: a non-empty list of references whose preprocessing calls all return
    and none of which passes does not stop the request: the provider is
    still invoked, once, and is handed the empty list. *)
Theorem all_references_failing_hands_empty_list canvas_id session_id provider model
    prompt aspect_ratio x l uid w w1 inst :
  uid ≠ 0 →
  check_and_update_credits uid w = (inr true, w1) →
  IMAGE_PROVIDERS !! provider = Some inst →
  preprocessing_raises (x :: l) w1 = None →
  passed_count (preprocess_results (x :: l) w1) = 0%nat →
  handed_to_provider
    (trace (generate_image_with_provider canvas_id session_id provider model prompt
              aspect_ratio (Some (x :: l)) (Some uid) (start w)).2) = Some (Some [])
  ∧ generate_calls
      (trace (generate_image_with_provider canvas_id session_id provider model prompt
                aspect_ratio (Some (x :: l)) (Some uid) (start w)).2) = 1%nat.
Proof.
  intros Huid Hgate Hreg Hreturn Hnone.
  rewrite (run_admitted _ _ _ _ _ _ (Some (x :: l)) _ _ _ _ Huid Hgate Hreg Hreturn).
  pose proof (no_generate_before_dispatch uid provider (Some (x :: l)) w1) as Hg.
  assert (passed (preprocess_results (x :: l) w1) = []) as Hempty.
  { apply length_zero_iff_nil. by rewrite passed_length. }
  destruct (generate inst _ _) as [[e|[[[mime_type width] height] filename]] w3];
    [|destruct (save_image_to_canvas _ _ _ _ _ _ w3) as [[e|image_url] w4]];
    cbn [snd trace]; rewrite handed_to_provider_skip, generate_calls_app, Hg by done;
    cbn [handed_to_provider generate_args ga_input_images outgoing];
    rewrite Hempty; done.
Qed.

End Accounting.

(** * Properties of the database service *)

Lemma executed_app (e1 e2 : list Db.event) :
  Db.executed (e1 ++ e2) = Db.executed e1 ++ Db.executed e2.
Proof. unfold Db.executed. apply omap_app. Qed.

Lemma logged_app (e1 e2 : list Db.event) :
  Db.logged (e1 ++ e2) = Db.logged e1 ++ Db.logged e2.
Proof. unfold Db.logged. apply omap_app. Qed.

(** Unfold the monad of the services. *)
Ltac eff_unfold :=
  unfold Eff.bind, Eff.call, Eff.emit, Eff.ret, Eff.raise, Eff.try_except.

Section Database.
Import Db.
Context {W : Type} `{K : Client W}.

Implicit Types (st : Eff.St event W).

(** X5: creating the service needs both settings: when the URL or the key is
    unset or empty, [ValueError] is raised before any client is created and
    nothing is logged; otherwise the client is created once, with these two
    values, and the outcome is logged once, an exception of the library being
    raised again as it is. *)
Theorem init_needs_url_and_key (url key : option string) st :
  match init url key st with
  | (inr _, st') =>
      truthy_str url = true ∧ truthy_str key = true
      ∧ Eff.events st' = Eff.events st
          ++ [CreateClient (default "" url) (default "" key);
              Log "INFO" "Supabase client initialized successfully."]
  | (inl e, st') =>
      ((truthy_str url = false ∨ truthy_str key = false)
       ∧ st' = st
       ∧ e = ValueError
               "SUPABASE_URL and SUPABASE_KEY must be set in the environment variables.")
      ∨ (truthy_str url = true ∧ truthy_str key = true
         ∧ (create_client (default "" url) (default "" key) (Eff.env st)).1 = inl e
         ∧ Eff.events st' = Eff.events st
             ++ [CreateClient (default "" url) (default "" key);
                 Log "ERROR" ("Failed to initialize Supabase client: " +:+ exn_str e)])
  end.
Proof.
  unfold init.
  destruct (truthy_str url) eqn:Hu; [destruct (truthy_str key) eqn:Hk|]; simpl.
  - eff_unfold. simpl.
    destruct (create_client _ _ _) as [[e|[]] w'] eqn:Hc; simpl.
    + right. repeat split; try done. by rewrite <- app_assoc.
    + repeat split; try done. by rewrite <- app_assoc.
  - left. repeat split; try done. by right.
  - left. repeat split; try done. by left.
Qed.


(** X7: a canvas that is not there costs one request, and the sessions are
    not listed.  When the client returns [None] in place of a response,
    reading [response.data] raises [AttributeError]; when it returns a
    response whose data is [None] or an empty dict, the method returns
    [None]. *)
Theorem get_canvas_data_missing (id : string) st response w' :
  let q := mkQuery "canvases" (Select "data, name") [Eq "id" (JStr id); MaybeSingle] in
  execute_single q (Eff.env st) = (inr response, w') →
  (response = None →
   get_canvas_data id st
   = (inl (Exception "AttributeError" "'NoneType' object has no attribute 'data'"),
      Eff.mkSt w' (Eff.events st ++ [Execute q])))
  ∧ (∀ data, response = Some data → data_or_none data = None →
     get_canvas_data id st = (inr None, Eff.mkSt w' (Eff.events st ++ [Execute q]))).
Proof.
  intros q Hq. subst q. unfold get_canvas_data, run_single, data_of. eff_unfold.
  rewrite Hq. split.
  - by intros ->.
  - intros data -> Hnone. simpl. by rewrite Hnone.
Qed.

(** X8: whenever [get_canvas_data] returns a canvas, its [data] entry is a
    truthy document or the empty dict, never [None] and never another falsy
    value; the result has the three keys [data], [name] and [sessions]; and
    the sessions were listed with the request of [list_sessions] for this
    very id. *)
Theorem get_canvas_data_shape (id : string) st canvas st' :
  get_canvas_data id st = (inr (Some canvas), st') →
  (∃ d name sessions,
     canvas = [("data", d); ("name", name); ("sessions", JList sessions)]
     ∧ (truthy_json d = true ∨ d = JDict []))
  ∧ executed (Eff.events st')
    = executed (Eff.events st)
        ++ [mkQuery "canvases" (Select "data, name") [Eq "id" (JStr id); MaybeSingle];
            list_sessions_query (Some id)].
Proof.
  unfold get_canvas_data, list_sessions, run_single, data_of, run_query. eff_unfold.
  destruct (execute_single _ _) as [[e|[data|]] w1]; simpl; [intros [=]| |intros [=]].
  destruct (data_or_none data) as [r|]; simpl; [|intros [=]].
  destruct (execute _ w1) as [[e|sessions] w2]; simpl; [intros [=]|].
  intros [= <- <-]. simpl. split.
  - eexists _, _, _. split; [reflexivity|].
    unfold or_empty_dict.
    destruct (truthy_json (dict_get_or_none "data" r)) eqn:Ht; [by left|by right].
  - rewrite !executed_app. simpl. by rewrite <- app_assoc.
Qed.

(** X9: the filter on the canvas is there exactly when the canvas id is a
    non-empty string: with [None] and with [""] alike, [list_sessions] asks
    for the sessions of every canvas. *)
Theorem list_sessions_filter (canvas_id : option string) :
  (truthy_str canvas_id = false →
   list_sessions_query canvas_id = list_sessions_query None
   ∧ q_modifiers (list_sessions_query canvas_id) = [Order "updated_at" true])
  ∧ (∀ id, canvas_id = Some id → id ≠ "" →
     q_modifiers (list_sessions_query canvas_id)
     = [Eq "canvas_id" (JStr id); Order "updated_at" true]).
Proof.
  split.
  - intros Hf. unfold list_sessions_query. rewrite Hf. done.
  - intros id -> Hid. unfold list_sessions_query. simpl.
    destruct (String.eqb id "") eqn:Heq; [|done].
    by apply String.eqb_eq in Heq.
Qed.

(** X10: text that [json.loads] rejects with [JSONDecodeError] never makes
    [save_canvas_data] fail: one update of the canvas row is sent, carrying
    the empty dict, and one warning is logged.  Text that parses is sent as
    the parsed document, without a log line.  In both cases the call fails
    only if the client does.  Any other exception of [json.loads] is not
    caught: it reaches the caller and nothing is sent or logged. *)
Theorem save_canvas_data_outcomes (id data : string) (thumbnail : option string) st :
  let update document :=
    mkQuery "canvases"
      (Update [("data", document); ("thumbnail", json_of_optional_str thumbnail);
               ("updated_at", JStr "now()")])
      [Eq "id" (JStr id)] in
  let sent document lines :=
    executed (Eff.events (save_canvas_data id data thumbnail st).2)
    = executed (Eff.events st) ++ [update document]
    ∧ (save_canvas_data id data thumbnail st).1
      = match (execute (update document) (Eff.env st)).1 with
        | inl e => inl e
        | inr _ => inr tt
        end
    ∧ logged (Eff.events (save_canvas_data id data thumbnail st).2)
      = logged (Eff.events st) ++ lines in
  match json_loads data with
  | inr document => sent document []
  | inl e =>
      if is_JSONDecodeError e
      then sent (JDict [])
             [("WARNING", "Invalid JSON in canvas data for canvas ID " +:+ id
                          +:+ ". Saving as empty object.")]
      else save_canvas_data id data thumbnail st = (inl e, st)
  end.
Proof.
  cbv zeta. unfold save_canvas_data, parse_canvas_data, run_query.
  destruct (json_loads data) as [e|document]; [destruct (is_JSONDecodeError e)|];
    eff_unfold; simpl; try done;
    destruct (execute _ (Eff.env st)) as [[e'|rows] w']; simpl;
    rewrite ?executed_app, ?logged_app; simpl;
    rewrite <- ?app_assoc, ?app_nil_r; done.
Qed.

(** X11: what [get_chat_history] makes of the rows it reads: the messages in the
    order of the rows, those that are missing or falsy left out.  The result
    is the truthy part of the [message] column, so nothing truthy is lost
    and nothing is reordered. *)
Theorem chat_history_is_truthy_messages (data : list row) :
  messages_of data = filter (λ m, truthy_json m) (omap (dict_get "message") data)
  ∧ Forall (λ m, truthy_json m = true) (messages_of data)
  ∧ sublist (messages_of data) (omap (dict_get "message") data)
  ∧ (length (messages_of data) ≤ length data)%nat.
Proof.
  assert (messages_of data
          = filter (λ m, truthy_json m) (omap (dict_get "message") data)) as Heq.
  { unfold messages_of. induction data as [|r data IH]; [done|].
    cbn [omap list_omap].
    destruct (dict_get "message" r) as [m|]; [|exact IH].
    rewrite filter_cons.
    destruct (truthy_json m) eqn:Hm.
    - destruct (decide _) as [_|Hn]; [|by destruct Hn]. by rewrite IH.
    - destruct (decide _) as [Hy|_]; [by destruct Hy|]. exact IH. }
  split; [exact Heq|]. split; [|split].
  - rewrite Heq. apply Forall_forall. intros m Hin.
    apply list_elem_of_filter in Hin as [Hm _]. by apply Is_true_true_1.
  - rewrite Heq. apply sublist_filter.
  - rewrite Heq.
    etrans; [apply length_filter|].
    clear. induction data as [|r data IH]; [done|].
    cbn [omap list_omap]. destruct (dict_get "message" r); simpl; lia.
Qed.

(** X12: a message written and read back.  When the text parses, or when
    [json.loads] rejects it with [JSONDecodeError], [create_message]
    inserts one row, whose [message] is the parsed value or the text
    wrapped in a [content] object.  Reading that row back with
    [get_chat_history] yields the stored value when it is truthy and nothing
    otherwise: rejected text always comes back, wrapped, while a message
    whose JSON is [null], [false], [0], an empty string, list or dict is
    stored but never returned.  Any other exception of [json.loads] is not
    caught: it reaches the caller and nothing is inserted. *)
Theorem message_written_then_read (session_id role message : string) st :
  let written stored :=
    inserted_into "chat_messages"
      (Eff.events (create_message session_id role message st).2)
    = inserted_into "chat_messages" (Eff.events st) ++ [message_row session_id role stored]
    ∧ messages_of [message_row session_id role stored]
      = (if truthy_json stored then [stored] else []) in
  match json_loads message with
  | inr message_obj => written message_obj
  | inl e =>
      if is_JSONDecodeError e
      then written (JDict [("content", JStr message)])
           ∧ messages_of [message_row session_id role (JDict [("content", JStr message)])]
             = [JDict [("content", JStr message)]]
      else create_message session_id role message st = (inl e, st)
  end.
Proof.
  cbv zeta. unfold create_message, parse_message, run_query, inserted_into.
  destruct (json_loads message) as [e|v]; [destruct (is_JSONDecodeError e)|];
    eff_unfold; simpl; try done.
  - split; [|done]. split; [|done].
    destruct (execute _ (Eff.env st)) as [[e'|rows] w']; simpl;
      rewrite ?executed_app, ?omap_app; simpl;
      rewrite <- ?app_assoc, ?app_nil_r; done.
  - split.
    + destruct (execute _ (Eff.env st)) as [[e'|rows] w']; simpl;
        rewrite ?executed_app, ?omap_app; simpl;
        rewrite <- ?app_assoc, ?app_nil_r; done.
    + unfold messages_of, message_row. simpl. by destruct (truthy_json v).
Qed.

(** X13: [create_comfy_workflow] has no fallback: if [json.loads] raises on
    one of the three JSON texts, its exception for the first such text (in
    the order [api_json], [inputs], [outputs]) is raised and nothing is
    sent to the datastore; if all three parse, exactly one insert is
    sent. *)
Theorem create_comfy_workflow_all_or_nothing
    (name api_json description inputs outputs : string) st :
  match json_loads api_json, json_loads inputs, json_loads outputs with
  | inr api, inr ins, inr outs =>
      executed (Eff.events (create_comfy_workflow name api_json description inputs
                              outputs st).2)
      = executed (Eff.events st)
          ++ [mkQuery "comfy_workflows"
                (Insert [("name", JStr name); ("api_json", api);
                         ("description", JStr description);
                         ("inputs", ins); ("outputs", outs)]) []]
  | inl e, _, _ =>
      create_comfy_workflow name api_json description inputs outputs st = (inl e, st)
  | inr _, inl e, _ =>
      create_comfy_workflow name api_json description inputs outputs st = (inl e, st)
  | inr _, inr _, inl e =>
      create_comfy_workflow name api_json description inputs outputs st = (inl e, st)
  end.
Proof.
  unfold create_comfy_workflow, loads_or_raise, run_query.
  destruct (json_loads api_json) as [e|api]; [done|].
  destruct (json_loads inputs) as [e|ins]; [done|].
  destruct (json_loads outputs) as [e|outs]; [done|].
  eff_unfold. simpl.
  destruct (execute _ (Eff.env st)) as [[e|rows] w']; simpl;
    by rewrite executed_app.
Qed.

End Database.

(** * Properties of the authentication service *)

Lemma dict_lookup_set_eq {V : Type} (key : string) (v : V) (d : list (string * V)) :
  AuthService.dict_lookup key (AuthService.dict_set key v d) = Some v.
Proof.
  induction d as [|[k x] d IH]; simpl.
  - by rewrite String.eqb_refl.
  - destruct (String.eqb k key) eqn:Hk; simpl; rewrite Hk; [done|exact IH].
Qed.

Lemma dict_lookup_set_ne {V : Type} (key other : string) (v : V) (d : list (string * V)) :
  other ≠ key →
  AuthService.dict_lookup other (AuthService.dict_set key v d)
  = AuthService.dict_lookup other d.
Proof.
  intros Hne. induction d as [|[k x] d IH]; simpl.
  - destruct (String.eqb key other) eqn:Hk; [|done].
    apply String.eqb_eq in Hk. by subst.
  - destruct (String.eqb k key) eqn:Hk; simpl.
    + apply String.eqb_eq in Hk. subst k.
      destruct (String.eqb key other) eqn:Hk'; [|done].
      apply String.eqb_eq in Hk'. by subst.
    + destruct (String.eqb k other); [done|exact IH].
Qed.

Section Tokens.
Import AuthService.
Context `{J : Jose}.

(** X14: every token [create_access_token] returns was encoded, with the secret
    key and HS256, from the claims of the caller in which [exp] is set to
    the current time plus the lifetime: an [exp] supplied by the caller is
    overwritten, every other claim is passed on unchanged, and a zero
    [timedelta] counts as none, so that the configured lifetime applies.
    The expiry lies within the range of [datetime]. *)
Theorem access_token_expiry (now : Z) (data : claims) (expires_delta : option Z)
    (token : string) :
  create_access_token now data expires_delta = inr token →
  let expire := now + lifetime expires_delta in
  let payload := dict_set "exp" (CDatetime expire) data in
  jwt_encode payload SECRET_KEY "HS256" = inr token
  ∧ dict_lookup "exp" payload = Some (CDatetime expire)
  ∧ (∀ key, key ≠ "exp" → dict_lookup key payload = dict_lookup key data)
  ∧ datetime_min ≤ expire ≤ datetime_max.
Proof.
  intros Hcreate expire payload. unfold create_access_token in Hcreate.
  assert (expiry now expires_delta = inr expire) as Hexp.
  { destruct (expiry now expires_delta) as [e|t] eqn:He; [done|].
    f_equal. subst expire. revert He. unfold expiry, lifetime, timedelta_minutes.
    destruct expires_delta as [delta|]; [destruct (delta =? 0)|];
      repeat case_match; unfold datetime_add; repeat case_match; naive_solver. }
  rewrite Hexp in Hcreate. split; [exact Hcreate|].
  split; [apply dict_lookup_set_eq|]. split.
  - intros key Hkey. by apply dict_lookup_set_ne.
  - revert Hexp. unfold expiry, lifetime, timedelta_minutes.
    assert (∀ d t, datetime_add now d = inr t → now + d = expire →
                   datetime_min ≤ expire ≤ datetime_max) as Hadd.
    { intros d t. unfold datetime_add. case_match eqn:Hin; [|done].
      intros _ <-. apply andb_true_iff in Hin as [H1 H2]. lia. }
    subst expire. unfold lifetime in *.
    destruct expires_delta as [delta|]; [destruct (delta =? 0)|];
      repeat case_match; try done; intros Ht; eapply Hadd; eauto; simplify_eq; done.
Qed.

End Tokens.

(** * Properties of the password validators *)

Section Passwords.
Import AuthRouter.

Lemma utf8_width_bounds (c : N) (n : nat) :
  utf8_width c = Some n → (1 ≤ n ≤ 4)%nat.
Proof. unfold utf8_width. repeat case_match; intros [= <-]; lia. Qed.

Lemma utf8_length_bounds (v : pystr) (n : nat) :
  utf8_length v = Some n → (length v ≤ n ≤ 4 * length v)%nat.
Proof.
  revert n. induction v as [|c v IH]; intros n; simpl.
  - intros [= <-]. lia.
  - destruct (utf8_width c) as [k|] eqn:Hc; [|done].
    destruct (utf8_length v) as [m|]; [|done].
    intros [= <-]. apply utf8_width_bounds in Hc. specialize (IH m eq_refl). lia.
Qed.

Lemma utf8_length_ascii (v : pystr) :
  Forall (λ c, (c < 128)%N) v → utf8_length v = Some (length v).
Proof.
  induction 1 as [|c v Hc _ IH]; [done|].
  simpl. unfold utf8_width. rewrite (proj2 (N.ltb_lt c 128) Hc). by rewrite IH.
Qed.

Lemma utf8_length_defined (v : pystr) :
  Forall (λ c, (c < 55296 ∨ 57343 < c)%N) v → is_Some (utf8_length v).
Proof.
  induction 1 as [|c v Hc _ [m IH]]; [by eexists|].
  simpl. rewrite IH.
  assert (is_Some (utf8_width c)) as [k ->]; [|by eexists].
  unfold utf8_width. repeat case_match; try by eexists.
  exfalso.
  match goal with H : _ && _ = true |- _ => apply andb_true_iff in H as [H1 H2] end.
  apply N.leb_le in H1, H2. lia.
Qed.

Lemma utf8_length_wide (v : pystr) (n : nat) :
  Forall (λ c, (2048 ≤ c)%N) v → utf8_length v = Some n → (3 * length v ≤ n)%nat.
Proof.
  intros Hwide. revert n. induction Hwide as [|c v Hc _ IH]; intros n; simpl.
  - intros [= <-]. lia.
  - destruct (utf8_width c) as [k|] eqn:Hk; [|done].
    destruct (utf8_length v) as [m|]; [|done].
    intros [= <-]. specialize (IH m eq_refl).
    assert (3 ≤ k)%nat; [|lia].
    revert Hk. unfold utf8_width.
    assert ((c <? 128)%N = false) as -> by (apply N.ltb_ge; lia).
    assert ((c <? 2048)%N = false) as -> by (apply N.ltb_ge; lia).
    repeat case_match; intros [= <-]; lia.
Qed.

(** X15: a password that passes the field is returned unchanged, has between 8
    and 72 characters, and its UTF-8 encoding has at most 72 bytes. *)
Theorem accepted_password_bounds (v v' : pystr) :
  password_field v = inr v' →
  v' = v
  ∧ (8 ≤ length v ≤ 72)%nat
  ∧ ∃ n, utf8_length v = Some n ∧ (length v ≤ n ≤ 72)%nat.
Proof.
  unfold password_field, validate_password_length.
  destruct (length v <? 8)%nat eqn:Hmin; [done|].
  destruct (utf8_length v) as [n|] eqn:Hn; [|done].
  destruct (72 <? n)%nat eqn:Hmax; [done|].
  intros [= <-]. apply Nat.ltb_ge in Hmin, Hmax.
  pose proof (utf8_length_bounds v n Hn).
  split; [done|]. split; [lia|]. exists n. split; [done|lia].
Qed.

(** X16: for a password of ASCII characters the two checks amount to a bound on
    its length: it is accepted exactly when it has 8 to 72 characters. *)
Theorem ascii_password_accepted_iff (v : pystr) :
  Forall (λ c, (c < 128)%N) v →
  password_field v = inr v ↔ (8 ≤ length v ≤ 72)%nat.
Proof.
  intros Hascii. unfold password_field, validate_password_length.
  rewrite (utf8_length_ascii v Hascii).
  destruct (length v <? 8)%nat eqn:Hmin;
    [apply Nat.ltb_lt in Hmin|apply Nat.ltb_ge in Hmin].
  - split; [done|lia].
  - destruct (72 <? length v)%nat eqn:Hmax;
      [apply Nat.ltb_lt in Hmax|apply Nat.ltb_ge in Hmax].
    + split; [done|lia].
    + split; [lia|done].
Qed.

(** X17: the limit of the validator is on bytes, not on characters.  A password
    without surrogates of at most 18 characters always fits, whatever its
    characters; a password all of whose characters lie beyond U+07FF is
    refused with "Password must not exceed 72 bytes." as soon as it has 25
    characters. *)
Theorem password_byte_budget (v : pystr) :
  (Forall (λ c, (c < 55296 ∨ 57343 < c)%N) v → (length v ≤ 18)%nat →
   validate_password_length v = inr v)
  ∧ (Forall (λ c, (2048 ≤ c)%N) v → Forall (λ c, (c < 55296 ∨ 57343 < c)%N) v →
     (25 ≤ length v)%nat →
     validate_password_length v = inl (ValueError "Password must not exceed 72 bytes.")).
Proof.
  unfold validate_password_length. split.
  - intros Hok Hlen. destruct (utf8_length_defined v Hok) as [n Hn]. rewrite Hn.
    pose proof (utf8_length_bounds v n Hn).
    destruct (72 <? n)%nat eqn:Hmax; [apply Nat.ltb_lt in Hmax; lia|done].
  - intros Hwide Hok Hlen. destruct (utf8_length_defined v Hok) as [n Hn]. rewrite Hn.
    pose proof (utf8_length_wide v n Hwide Hn).
    destruct (72 <? n)%nat eqn:Hmax; [done|apply Nat.ltb_ge in Hmax; lia].
Qed.

End Passwords.

(** * Properties of the authentication endpoints *)

Lemma writes_app (e1 e2 : list AuthRouter.event) :
  AuthRouter.writes (e1 ++ e2) = AuthRouter.writes e1 ++ AuthRouter.writes e2.
Proof. unfold AuthRouter.writes. apply filter_app. Qed.

(** Unfold the calls of an endpoint. *)
Ltac endpoint_unfold :=
  unfold AuthRouter.perform, AuthRouter.lift, AuthRouter.subscript; eff_unfold.

Section Lookups.
Import AuthRouter.
Context {W : Type} `{K : Db.Client W} `{B : Backend W}.

Implicit Types (st : Eff.St event W).

(** One of the three lookups of a user, called and then awaited: one
    request goes to the table "users", and whatever the client answers, an
    exception other than an HTTP error is raised and the rest of the
    endpoint does not run. *)
Lemma awaited_lookup {A} (column : string) (value : json) (k : option row → R W A) st
    answer w' :
  Db.execute_single
    (Db.mkQuery "users" (Db.Select "*") [Db.Eq column value; Db.MaybeSingle]) (Eff.env st)
  = (answer, w') →
  ∃ e,
    (let+ returned := database (Db.get_user_by column value) in
     let+ user := await_plain (type_name_of_row returned) in
     k user) st
    = (inl (Raised e),
       Eff.mkSt w'
         (Eff.events st
            ++ [Database (Db.Execute (Db.mkQuery "users" (Db.Select "*")
                                        [Db.Eq column value; Db.MaybeSingle]))]))
    ∧ match answer with
      | inl raised => e = raised
      | inr None =>
          e = Exception "AttributeError" "'NoneType' object has no attribute 'data'"
      | inr (Some data) =>
          e = Exception "TypeError"
                (not_awaitable (type_name_of_row (Db.data_or_none data)))
      end.
Proof.
  intros Hanswer.
  unfold database, await_plain, Db.get_user_by, Db.run_single, Db.data_of.
  eff_unfold. unfold Eff.fresh. cbn [Eff.env Eff.events]. rewrite Hanswer.
  destruct answer as [raised|[data|]]; cbn; eexists; (split; [reflexivity|done]).
Qed.

End Lookups.

Section CurrentUser.
Import AuthRouter.
Context {W : Type} `{K : Db.Client W} `{B : Backend W} `{J : AuthService.Jose}.

Implicit Types (st : Eff.St event W).

(** X18: a token that the JWT library rejects with a [JWTError], or whose
    payload has no [sub] (or a null one), is turned away with the 401
    "Could not validate credentials" before the datastore is asked
    anything. *)
Theorem get_current_user_rejects_without_lookup (token : string) st :
  (AuthService.decode_access_token token = inr None
   ∨ ∃ claims, AuthService.decode_access_token token = inr (Some claims)
               ∧ dict_get_or_none "sub" claims = JNull) →
  get_current_user token st = (inl credentials_exception, st).
Proof.
  unfold get_current_user. endpoint_unfold.
  intros [-> | (claims & -> & ->)]; reflexivity.
Qed.

(** X19: [get_current_user] never returns a user.  [get_user_by_id] of
    [db_service.py] is a plain function, and line 71 awaits what it
    returned.  So a token whose subject [int()] accepts leads to exactly one
    request, for the row of "users" with that id, and then to an exception
    that is no HTTP error: the one the client raised; [AttributeError] when
    the client gave [None] in place of a response; and otherwise
    [TypeError], for awaiting a dict (a non-empty row) or [None] (no row, or
    an empty one). *)
Theorem get_current_user_never_returns (token : string) st :
  (∀ user st', get_current_user token st ≠ (inr user, st'))
  ∧ ∀ claims n answer w',
      AuthService.decode_access_token token = inr (Some claims) →
      dict_get_or_none "sub" claims ≠ JNull →
      py_int (dict_get_or_none "sub" claims) = inr n →
      Db.execute_single
        (Db.mkQuery "users" (Db.Select "*") [Db.Eq "id" (JInt n); Db.MaybeSingle])
        (Eff.env st)
      = (answer, w') →
      ∃ e,
        get_current_user token st
        = (inl (Raised e),
           Eff.mkSt w'
             (Eff.events st
                ++ [Database (Db.Execute (Db.mkQuery "users" (Db.Select "*")
                                            [Db.Eq "id" (JInt n); Db.MaybeSingle]))]))
        ∧ match answer with
          | inl raised => e = raised
          | inr None =>
              e = Exception "AttributeError" "'NoneType' object has no attribute 'data'"
          | inr (Some data) =>
              e = Exception "TypeError"
                    (not_awaitable (type_name_of_row (Db.data_or_none data)))
          end.
Proof.
  split.
  - intros user st'. unfold get_current_user.
    unfold lift at 1. unfold Eff.bind at 1.
    destruct (AuthService.decode_access_token token) as [e|[claims|]]; try done.
    cbn [Eff.ret].
    destruct (dict_get_or_none "sub" claims) eqn:Hsub; try done;
      (unfold Eff.bind at 1; unfold lift at 1;
       destruct (py_int _) as [e|n]; [done|]; cbn [Eff.ret];
       destruct (Db.execute_single
                   (Db.mkQuery "users" (Db.Select "*") [Db.Eq "id" (JInt n); Db.MaybeSingle])
                   (Eff.env st)) as [answer w'] eqn:Hanswer;
       destruct (awaited_lookup "id" (JInt n)
                   (λ user, match user with
                            | None => Eff.raise credentials_exception
                            | Some u => Eff.ret u
                            end) st answer w' Hanswer) as (e & Hrun & _);
       unfold Db.get_user_by_id; by rewrite Hrun).
  - intros claims n answer w' Hdecode Hsub Hint Hanswer.
    destruct (awaited_lookup "id" (JInt n)
                (λ user, match user with
                         | None => Eff.raise credentials_exception
                         | Some u => Eff.ret u
                         end) st answer w' Hanswer) as (e & Hrun & He).
    exists e. split; [|done].
    unfold get_current_user. unfold lift at 1. unfold Eff.bind at 1.
    rewrite Hdecode. cbn [Eff.ret].
    destruct (dict_get_or_none "sub" claims) eqn:Hsub'; try done;
      (unfold Eff.bind at 1; unfold lift at 1; rewrite Hint; cbn [Eff.ret];
       unfold Db.get_user_by_id; exact Hrun).
Qed.

(** X20: every HTTP error of [get_current_user] is the 401 "Could not
    validate credentials" with the [WWW-Authenticate] header, and it is
    raised before the datastore is asked anything, for a token the JWT
    library rejected or one without a subject.  A token that names a user
    the datastore does not have is not answered with it. *)
Theorem get_current_user_rejections_alike (token : string) st code detail headers st' :
  get_current_user token st = (inl (HTTPError code detail headers), st') →
  HTTPError code detail headers = credentials_exception
  ∧ st' = st
  ∧ (AuthService.decode_access_token token = inr None
     ∨ ∃ claims, AuthService.decode_access_token token = inr (Some claims)
                 ∧ dict_get_or_none "sub" claims = JNull).
Proof.
  unfold get_current_user.
  unfold lift at 1. unfold Eff.bind at 1.
  destruct (AuthService.decode_access_token token) as [e|[claims|]] eqn:Hdecode;
    try done; cbn [Eff.ret Eff.raise].
  2:{ intros [= <- <- <- <-]. split; [done|]. split; [done|by left]. }
  destruct (dict_get_or_none "sub" claims) eqn:Hsub;
    try (intros [= <- <- <- <-]; split; [done|]; split; [done|];
         right; by exists claims);
    (unfold Eff.bind at 1; unfold lift at 1;
     destruct (py_int _) as [e|n]; [done|]; cbn [Eff.ret];
     destruct (Db.execute_single
                 (Db.mkQuery "users" (Db.Select "*") [Db.Eq "id" (JInt n); Db.MaybeSingle])
                 (Eff.env st)) as [answer w'] eqn:Hanswer;
     destruct (awaited_lookup "id" (JInt n)
                 (λ user, match user with
                          | None => Eff.raise credentials_exception
                          | Some u => Eff.ret u
                          end) st answer w' Hanswer) as (e & Hrun & _);
     unfold Db.get_user_by_id; by rewrite Hrun).
Qed.

End CurrentUser.

Section Accounts.
Import AuthRouter.
Context {W : Type} `{K : Db.Client W} `{B : Backend W} `{J : AuthService.Jose}.

Implicit Types (st : Eff.St event W).

(** X21: a login never returns a token and never answers 401.
    [get_user_by_username] of [db_service.py] is a plain function, and
    line 96 awaits what it returned.  So every login makes one request, for
    the row of "users" with that user name, and ends in an exception that is
    no HTTP error: the one the client raised; [AttributeError] when the
    client gave [None] in place of a response; and otherwise [TypeError].
    The password is not checked and the clock is not read. *)
Theorem login_stops_at_lookup (username password : string) st answer w' :
  Db.execute_single
    (Db.mkQuery "users" (Db.Select "*") [Db.Eq "username" (JStr username); Db.MaybeSingle])
    (Eff.env st)
  = (answer, w') →
  ∃ e,
    login_for_access_token username password st
    = (inl (Raised e),
       Eff.mkSt w'
         (Eff.events st
            ++ [Database (Db.Execute (Db.mkQuery "users" (Db.Select "*")
                                        [Db.Eq "username" (JStr username);
                                         Db.MaybeSingle]))]))
    ∧ match answer with
      | inl raised => e = raised
      | inr None =>
          e = Exception "AttributeError" "'NoneType' object has no attribute 'data'"
      | inr (Some data) =>
          e = Exception "TypeError"
                (not_awaitable (type_name_of_row (Db.data_or_none data)))
      end.
Proof.
  intros Hanswer. unfold login_for_access_token, Db.get_user_by_username.
  by apply awaited_lookup.
Qed.

(** X23: a registration never gets past its first lookup.
    [get_user_by_username] of [db_service.py] is a plain function, and
    line 78 awaits what it returned.  So every registration makes one
    request, for the row of "users" with that user name, and ends in an
    exception that is no HTTP error, as a login does.  The e-mail address is
    not looked up, the password is not hashed, and nothing is written:
    neither of the two 400 answers is given and no user is created. *)
Theorem register_stops_at_first_lookup (username email password : string) st answer w' :
  Db.execute_single
    (Db.mkQuery "users" (Db.Select "*") [Db.Eq "username" (JStr username); Db.MaybeSingle])
    (Eff.env st)
  = (answer, w') →
  ∃ e,
    register_user username email password st
    = (inl (Raised e),
       Eff.mkSt w'
         (Eff.events st
            ++ [Database (Db.Execute (Db.mkQuery "users" (Db.Select "*")
                                        [Db.Eq "username" (JStr username);
                                         Db.MaybeSingle]))]))
    ∧ writes (Eff.events (register_user username email password st).2)
      = writes (Eff.events st)
    ∧ match answer with
      | inl raised => e = raised
      | inr None =>
          e = Exception "AttributeError" "'NoneType' object has no attribute 'data'"
      | inr (Some data) =>
          e = Exception "TypeError"
                (not_awaitable (type_name_of_row (Db.data_or_none data)))
      end.
Proof.
  intros Hanswer. unfold register_user, Db.get_user_by_username.
  destruct (awaited_lookup "username" (JStr username)
              (λ db_user_by_username,
                 if truthy_row db_user_by_username
                 then Eff.raise (HTTPError 400 "Username already registered" None)
                 else
                   let+ returned := database (Db.get_user_by_email email) in
                   let+ db_user_by_email := await_plain (type_name_of_row returned) in
                   if truthy_row db_user_by_email
                   then Eff.raise (HTTPError 400 "Email already registered" None)
                   else
                     let+ hashed_password :=
                       perform (GetPasswordHash password) (get_password_hash password) in
                     let+ returned :=
                       database (Db.create_user username email hashed_password "user") in
                     let+ user_id := await_plain (type_name_of_json returned) in
                     lift (User (registered_user user_id username email)))
              st answer w' Hanswer) as (e & Hrun & He).
  exists e. rewrite Hrun. split; [done|]. split; [|done].
  cbn [snd Eff.events]. rewrite writes_app. cbn. by rewrite app_nil_r.
Qed.

(** X25: a wrong current password stops [change_password] with 400 "Incorrect
    current password" right after the check: the new password is not hashed
    and nothing is written.  In any run the only write there can be is the
    update of the password of [current_user['id']] to what the hasher
    returned for the new password, and it happens only after the current
    password was verified. *)
Theorem change_password_guarded (current_password new_password : string)
    (current_user : row) st :
  (∀ hashed w1,
     dict_get "hashed_password" current_user = Some hashed →
     verify_password current_password hashed (Eff.env st) = (inr false, w1) →
     change_password current_password new_password current_user st
     = (inl (HTTPError 400 "Incorrect current password" None),
        Eff.mkSt w1 (Eff.events st ++ [VerifyPassword current_password hashed])))
  ∧ ∃ new,
      Eff.events (change_password current_password new_password current_user st).2
      = Eff.events st ++ new
      ∧ (writes new = []
         ∨ ∃ hashed w1 new_hashed w2 id,
             dict_get "hashed_password" current_user = Some hashed
             ∧ verify_password current_password hashed (Eff.env st) = (inr true, w1)
             ∧ get_password_hash new_password w1 = (inr new_hashed, w2)
             ∧ dict_get "id" current_user = Some id
             ∧ writes new = [UpdateUserPassword id new_hashed]).
Proof.
  split.
  - intros hashed w1 Hhash Hverify. unfold change_password. endpoint_unfold.
    rewrite Hhash. cbn -[dict_get]. by rewrite Hverify.
  - unfold change_password. endpoint_unfold.
    destruct (dict_get "hashed_password" current_user) as [hashed|] eqn:Hhash; cbn -[dict_get].
    2:{ exists []. split; [by rewrite app_nil_r|by left]. }
    destruct (verify_password current_password hashed (Eff.env st)) as [[e|[|]] w1]
      eqn:Hverify; cbn -[dict_get].
    { eexists. split; [reflexivity|by left]. }
    2:{ eexists. split; [reflexivity|by left]. }
    destruct (get_password_hash new_password w1) as [[e|new_hashed] w2] eqn:Hnew; cbn -[dict_get].
    { eexists. split; [by rewrite <- !app_assoc|by left]. }
    destruct (dict_get "id" current_user) as [id|] eqn:Hid; cbn -[dict_get].
    2:{ eexists. split; [by rewrite <- !app_assoc|by left]. }
    destruct (update_user_password id new_hashed w2) as [[e|[]] w3]; cbn -[dict_get];
      (eexists; split; [by rewrite <- !app_assoc|];
       right; by exists hashed, w1, new_hashed, w2, id).
Qed.

End Accounts.

(** * The further properties on sample runs *)

(** The datastore is down when the gate is asked. *)
Lemma gate_failure_propagates_witness :
  sample_request (H := unreachable_datastore) "openai" (Some ["a.png"]) (Some 1) (start tt)
  = (inl (Exception "ConnectError" "timed out"), mkState tt [CreditCheck 1]).
Proof.
  apply (@gate_failure_propagates _ unreachable_datastore "canvas-1" "session-1" "openai"
           "x" "a cat" "1:1" (Some ["a.png"]) 1 tt (Exception "ConnectError" "timed out") tt).
  - discriminate.
  - reflexivity.
Defined.

(** Three references, the second of which cannot be read: the request ends
    there. *)
Lemma every_reference_preprocessed_once_witness :
  (sample_run sample_backends "openai"
     (Some ["a.png"; "locked.png"; "b.png"]) (Some 1) 1).1
  = inl (Exception "PermissionError" "Permission denied")
  ∧ generate_calls
      (trace (sample_run sample_backends "openai"
                (Some ["a.png"; "locked.png"; "b.png"]) (Some 1) 1).2) = 0%nat
  ∧ save_calls
      (trace (sample_run sample_backends "openai"
                (Some ["a.png"; "locked.png"; "b.png"]) (Some 1) 1).2) = 0%nat
  ∧ length
      (preprocessed_paths
         (trace (sample_run sample_backends "openai"
                   (Some ["a.png"; "locked.png"; "b.png"]) (Some 1) 1).2)) = 2%nat.
Proof.
  destruct (@every_reference_preprocessed_once _ (deployed sample_backends) "canvas-1"
              "session-1" "openai" "x" "a cat" "1:1"
              (Some ["a.png"; "locked.png"; "b.png"]) 1 (one_user 1) (one_user 0)
              OpenAIImageProvider) as (_ & _ & Hraises).
  - discriminate.
  - reflexivity.
  - reflexivity.
  - exact (Hraises _ eq_refl).
Defined.

(** One reference, which fails. *)
Lemma all_references_failing_hands_empty_list_witness :
  handed_to_provider
    (trace (sample_run sample_backends "openai" (Some ["broken.png"]) (Some 1) 1).2)
  = Some (Some []).
Proof.
  apply (@all_references_failing_hands_empty_list _ (deployed sample_backends) "canvas-1"
           "session-1" "openai" "x" "a cat" "1:1" "broken.png" [] 1 (one_user 1)
           (one_user 0) OpenAIImageProvider).
  - discriminate.
  - reflexivity.
  - reflexivity.
  - reflexivity.
  - reflexivity.
Defined.


(** A canvas the datastore does not have, with a client that answers
    [None]. *)
Lemma get_canvas_data_missing_witness :
  Db.get_canvas_data (K := sample_client) "nowhere" (Eff.fresh tt)
  = (inl (Exception "AttributeError" "'NoneType' object has no attribute 'data'"),
     Eff.mkSt tt [Db.Execute (Db.mkQuery "canvases" (Db.Select "data, name")
                                [Db.Eq "id" (JStr "nowhere"); Db.MaybeSingle])]).
Proof.
  apply (proj1 (@get_canvas_data_missing _ sample_client "nowhere" (Eff.fresh tt) None tt
                  eq_refl)).
  reflexivity.
Defined.

(** A canvas whose stored document is null reads back with [{}]. *)
Lemma get_canvas_data_shape_witness :
  ∃ d name sessions,
    [("data", JDict []); ("name", JStr "Sketch"); ("sessions", JList [])]
    = [("data", d); ("name", name); ("sessions", JList sessions)]
    ∧ (truthy_json d = true ∨ d = JDict []).
Proof.
  exact (proj1 (@get_canvas_data_shape _ sample_client "c1" (Eff.fresh tt)
                  [("data", JDict []); ("name", JStr "Sketch"); ("sessions", JList [])]
                  (Eff.mkSt tt
                     [Db.Execute (Db.mkQuery "canvases" (Db.Select "data, name")
                                    [Db.Eq "id" (JStr "c1"); Db.MaybeSingle]);
                      Db.Execute (Db.list_sessions_query (Some "c1"))])
                  eq_refl)).
Defined.

(** An empty canvas id asks for every session. *)
Lemma list_sessions_filter_witness :
  Db.list_sessions_query (Some "") = Db.list_sessions_query None
  ∧ Db.q_modifiers (Db.list_sessions_query (Some "c1"))
    = [Db.Eq "canvas_id" (JStr "c1"); Db.Order "updated_at" true].
Proof.
  split.
  - exact (proj1 (proj1 (list_sessions_filter (Some "")) eq_refl)).
  - apply (proj2 (list_sessions_filter (Some "c1")) "c1"); [reflexivity|discriminate].
Defined.

(** A zero [timedelta] and an [exp] of the caller: the token expires seven
    days after the call. *)
Lemma access_token_expiry_witness :
  AuthService.dict_lookup "exp"
    (AuthService.dict_set "exp"
       (AuthService.CDatetime
          (1700000000000000 + AuthService.lifetime (J := sample_jose) (Some 0)))
       [("sub", AuthService.CJson (JStr "7")); ("exp", AuthService.CJson (JInt 1))])
  = Some (AuthService.CDatetime 1700604800000000).
Proof.
  destruct (@access_token_expiry sample_jose 1700000000000000
              [("sub", AuthService.CJson (JStr "7")); ("exp", AuthService.CJson (JInt 1))]
              (Some 0) "jwt.7" eq_refl) as (_ & Hexp & _).
  exact Hexp.
Defined.

(** "password": eight ASCII characters. *)
Lemma accepted_password_bounds_witness :
  (8 ≤ length [112; 97; 115; 115; 119; 111; 114; 100]%N ≤ 72)%nat.
Proof.
  destruct (accepted_password_bounds [112; 97; 115; 115; 119; 111; 114; 100]%N
              [112; 97; 115; 115; 119; 111; 114; 100]%N eq_refl) as (_ & Hlen & _).
  exact Hlen.
Defined.

Lemma ascii_password_accepted_iff_witness :
  AuthRouter.password_field [112; 97; 115; 115; 119; 111; 114; 100]%N
  = inr [112; 97; 115; 115; 119; 111; 114; 100]%N.
Proof.
  apply (ascii_password_accepted_iff [112; 97; 115; 115; 119; 111; 114; 100]%N).
  - repeat constructor.
  - simpl. lia.
Defined.

(** Twenty-five times U+4E2D: 75 bytes. *)
Lemma password_byte_budget_witness :
  AuthRouter.validate_password_length (replicate 25 20013%N)
  = inl (ValueError "Password must not exceed 72 bytes.").
Proof.
  apply (proj2 (password_byte_budget (replicate 25 20013%N))).
  - apply Forall_replicate. lia.
  - apply Forall_replicate. lia.
  - rewrite length_replicate. lia.
Defined.

(** A string that is no token. *)
Lemma get_current_user_rejects_without_lookup_witness :
  AuthRouter.get_current_user (K := sample_client) (B := sample_backend) (J := sample_jose)
    "garbage" (Eff.fresh tt)
  = (inl AuthRouter.credentials_exception, Eff.fresh tt).
Proof.
  apply (@get_current_user_rejects_without_lookup _ sample_client sample_backend
           sample_jose "garbage" (Eff.fresh tt)).
  left. reflexivity.
Defined.

(** The token of user 7, whose row the datastore holds. *)
Lemma get_current_user_never_returns_witness :
  ∃ e,
    AuthRouter.get_current_user (K := sample_client) (B := sample_backend)
      (J := sample_jose) "jwt.7" (Eff.fresh tt)
    = (inl (AuthRouter.Raised e),
       Eff.mkSt tt
         [AuthRouter.Database
            (Db.Execute (Db.mkQuery "users" (Db.Select "*")
                           [Db.Eq "id" (JInt 7); Db.MaybeSingle]))])
    ∧ e = Exception "TypeError" "object dict can't be used in 'await' expression".
Proof.
  apply (proj2 (@get_current_user_never_returns _ sample_client sample_backend sample_jose
                  "jwt.7" (Eff.fresh tt))
           [("sub", JStr "7")] 7
           (inr (Some (Some [("id", JInt 7); ("username", JStr "alice")]))) tt).
  - reflexivity.
  - discriminate.
  - reflexivity.
  - reflexivity.
Defined.

(** A string that is no token is answered with the 401, and nothing was
    asked of the datastore. *)
Lemma get_current_user_rejections_alike_witness :
  AuthRouter.HTTPError 401 "Could not validate credentials"
    (Some [("WWW-Authenticate", "Bearer")])
  = AuthRouter.credentials_exception
  ∧ Eff.fresh (E := AuthRouter.event) tt = Eff.fresh tt
  ∧ (AuthService.decode_access_token (J := sample_jose) "garbage" = inr None
     ∨ ∃ claims,
         AuthService.decode_access_token (J := sample_jose) "garbage" = inr (Some claims)
         ∧ dict_get_or_none "sub" claims = JNull).
Proof.
  exact (@get_current_user_rejections_alike _ sample_client sample_backend sample_jose
           "garbage" (Eff.fresh tt) 401 "Could not validate credentials"
           (Some [("WWW-Authenticate", "Bearer")]) (Eff.fresh tt) eq_refl).
Defined.

(** The right password of a user the datastore holds. *)
Lemma login_stops_at_lookup_witness :
  ∃ e,
    AuthRouter.login_for_access_token (K := sample_client) (B := sample_backend)
      (J := sample_jose) "alice" "correct horse" (Eff.fresh tt)
    = (inl (AuthRouter.Raised e),
       Eff.mkSt tt
         [AuthRouter.Database
            (Db.Execute (Db.mkQuery "users" (Db.Select "*")
                           [Db.Eq "username" (JStr "alice"); Db.MaybeSingle]))])
    ∧ e = Exception "TypeError" "object dict can't be used in 'await' expression".
Proof.
  exact (@login_stops_at_lookup _ sample_client sample_backend sample_jose "alice"
           "correct horse" (Eff.fresh tt)
           (inr (Some (Some [("id", JInt 7); ("username", JStr "alice")]))) tt eq_refl).
Defined.

(** A user name the datastore does not hold, with a client that answers
    [None]. *)
Lemma register_stops_at_first_lookup_witness :
  ∃ e,
    AuthRouter.register_user (K := sample_client) (B := sample_backend)
      "carol" "carol@example.org" "pw123456" (Eff.fresh tt)
    = (inl (AuthRouter.Raised e),
       Eff.mkSt tt
         [AuthRouter.Database
            (Db.Execute (Db.mkQuery "users" (Db.Select "*")
                           [Db.Eq "username" (JStr "carol"); Db.MaybeSingle]))])
    ∧ AuthRouter.writes
        (Eff.events
           (AuthRouter.register_user (K := sample_client) (B := sample_backend)
              "carol" "carol@example.org" "pw123456" (Eff.fresh tt)).2)
      = []
    ∧ e = Exception "AttributeError" "'NoneType' object has no attribute 'data'".
Proof.
  exact (@register_stops_at_first_lookup _ sample_client sample_backend "carol"
           "carol@example.org" "pw123456" (Eff.fresh tt) (inr None) tt eq_refl).
Defined.

(** A wrong current password. *)
Lemma change_password_guarded_witness :
  AuthRouter.change_password (B := sample_backend) "guess" "new password" alice
    (Eff.fresh tt)
  = (inl (AuthRouter.HTTPError 400 "Incorrect current password" None),
     Eff.mkSt tt [AuthRouter.VerifyPassword "guess" (JStr "h(correct horse)")]).
Proof.
  apply (proj1 (@change_password_guarded _ sample_backend "guess" "new password" alice
                  (Eff.fresh tt)) (JStr "h(correct horse)") tt).
  - reflexivity.
  - reflexivity.
Defined.
